(** * Order intake handlers (src/index.js and its packaged copy)

    A shallow embedding of the three Lambda handlers [health],
    [getProducts] and [createOrder], of the configuration loader
    [getDbConfig] and of the pool accessor [getPool], followed by the
    properties of the order-intake pipeline.

    JavaScript numbers are IEEE-754 binary64 values: they are embedded as
    Rocq's primitive [float], whose [add] and [mul] are the operations
    the source performs with [+] and [*].  Exceptions are values of the
    type [exn] and every [await]ed collaborator call is a query to an
    oracle of the [World], logged in the order in which it is issued. *)

From Stdlib Require Import ZArith List String Ascii Bool Lia.
From Stdlib Require Import PrimFloat SpecFloat FloatOps FloatAxioms.
Import ListNotations.
Open Scope string_scope.

Set Implicit Arguments.
Set Warnings "-register-all".

(* ================================================================= *)
(** ** JavaScript values *)

(** The values the handlers manipulate: what [JSON.parse] produces,
    plus [undefined] (the result of reading a missing property).
    An object is the list of its own properties in insertion order. *)
Inductive value : Type :=
| VUndefined
| VNull
| VBool (b : bool)
| VNum (n : float)
| VStr (s : string)
| VArr (elems : list value)
| VObj (props : list (string * value)).

(** What a [throw], or a rejected promise, carries. *)
Inductive exn : Type :=
| TypeError (msg : string)
| SyntaxError (msg : string)
| Error (msg : string)
| Rejected (detail : string).   (* rejection coming from the driver or the SDK *)

Definition result (A : Type) : Type := (exn + A)%type.

Definition ok {A} (a : A) : result A := inr a.
Definition raise {A} (e : exn) : result A := inl e.

Definition rbind {A B} (r : result A) (k : A -> result B) : result B :=
  match r with
  | inl e => inl e
  | inr a => k a
  end.

Declare Scope result_scope.
Delimit Scope result_scope with res.
Notation "x <- r ;; k" := (rbind r (fun x => k))
  (at level 61, r at next level, right associativity) : result_scope.

(** [xs.map(f)] where [f] may throw: elements are visited from left to
    right and the first exception aborts the traversal. *)
Fixpoint mapR {A B} (f : A -> result B) (xs : list A) : result (list B) :=
  match xs with
  | [] => ok []
  | x :: rest =>
      (y <- f x ;;
       ys <- mapR f rest ;;
       ok (y :: ys))%res
  end.

(** Own-property lookup. *)
Fixpoint own (props : list (string * value)) (k : string) : option value :=
  match props with
  | [] => None
  | (k', v) :: rest => if String.eqb k' k then Some v else own rest k
  end.

(** [v.k] for the property names the handlers read ([body], [items],
    [productId], [quantity], [host], [username], ...): none of them is
    defined on a built-in prototype, so the access yields the own
    property of an object, [undefined] on any other value, and throws a
    [TypeError] on [null] and [undefined]. *)
Definition get (v : value) (k : string) : result value :=
  match v with
  | VUndefined => raise (TypeError ("Cannot read properties of undefined (reading '" ++ k ++ "')"))
  | VNull => raise (TypeError ("Cannot read properties of null (reading '" ++ k ++ "')"))
  | VObj props =>
      match own props k with
      | Some x => ok x
      | None => ok VUndefined
      end
  | _ => ok VUndefined
  end.

(** ToBoolean. *)
Definition truthy (v : value) : bool :=
  match v with
  | VUndefined | VNull => false
  | VBool b => b
  | VNum n => negb (is_zero n || is_nan n)
  | VStr s => negb (String.eqb s "")
  | VArr _ | VObj _ => true
  end.

(** SameValueZero, the key comparison of [Map].  Objects and arrays are
    compared by identity; a key read from the request is never the same
    object as a key built from a database row. *)
Definition sameValueZero (a b : value) : bool :=
  match a, b with
  | VUndefined, VUndefined => true
  | VNull, VNull => true
  | VBool x, VBool y => Bool.eqb x y
  | VNum x, VNum y => PrimFloat.eqb x y || (is_nan x && is_nan y)
  | VStr x, VStr y => String.eqb x y
  | _, _ => false
  end.

(* ================================================================= *)
(** ** Built-ins of the runtime *)

(** The text-level built-ins are an interface of the runtime.
    [JSON_parse s = None] stands for the [SyntaxError] that [JSON.parse]
    throws. *)
Class JSRuntime : Type := {
  JSON_parse : string -> option value;
  JSON_stringify : value -> string;
  StringToNumber : string -> float;
  NumberToString : float -> string;
  base64_to_utf8 : string -> string
}.

Section Coercions.
Context {rt : JSRuntime}.

(** ToString.  An array is joined with commas ([null] and [undefined]
    elements give the empty string); a parsed object has no callable
    own property, so it prints as "[object Object]" unless an own
    [toString] property hides the inherited method, in which case no
    primitive can be produced. *)
Fixpoint ToString (v : value) : result string :=
  match v with
  | VUndefined => ok "undefined"
  | VNull => ok "null"
  | VBool true => ok "true"
  | VBool false => ok "false"
  | VNum n => ok (NumberToString n)
  | VStr s => ok s
  | VArr elems =>
      (fix join (l : list value) : result string :=
         match l with
         | [] => ok ""
         | x :: rest =>
             (s <- match x with
                   | VUndefined | VNull => ok ""
                   | _ => ToString x
                   end ;;
              match rest with
              | [] => ok s
              | _ :: _ => (r <- join rest ;; ok (s ++ "," ++ r))
              end)%res
         end) elems
  | VObj props =>
      match own props "toString" with
      | Some _ => raise (TypeError "Cannot convert object to primitive value")
      | None => ok "[object Object]"
      end
  end.

(** [Number(v)]. *)
Definition ToNumber (v : value) : result float :=
  match v with
  | VUndefined => ok nan
  | VNull => ok 0%float
  | VBool true => ok 1%float
  | VBool false => ok 0%float
  | VNum n => ok n
  | VStr s => ok (StringToNumber s)
  | VArr _ | VObj _ => (s <- ToString v ;; ok (StringToNumber s))%res
  end.
(** [JSON.parse(v)]: the argument is converted to a string, then
    parsed. *)
Definition JSON_parse_value (v : value) : result value :=
  (text <- ToString v ;;
   match JSON_parse text with
   | Some parsed => ok parsed
   | None => raise (SyntaxError "Unexpected token in JSON")
   end)%res.
End Coercions.

(* ================================================================= *)
(** ** [Map] with SameValueZero keys *)

Definition JsMap (V : Type) : Type := list (value * V).

Fixpoint Map_set {V} (m : JsMap V) (k : value) (v : V) : JsMap V :=
  match m with
  | [] => [(k, v)]
  | (k', v') :: rest =>
      if sameValueZero k' k then (k', v) :: rest else (k', v') :: Map_set rest k v
  end.

(** [new Map(entries)]: the entries are added one by one. *)
Definition Map_new {V} (entries : list (value * V)) : JsMap V :=
  fold_left (fun m kv => Map_set m (fst kv) (snd kv)) entries [].

(** [m.get(k)]; [None] is the [undefined] of a missing key. *)
Fixpoint Map_get {V} (m : JsMap V) (k : value) : option V :=
  match m with
  | [] => None
  | (k', v) :: rest => if sameValueZero k' k then Some v else Map_get rest k
  end.

(* ================================================================= *)
(** ** The world outside the process *)

(** One row of [SELECT id, price FROM products WHERE id IN (?)]. *)
Record ProductRow : Type := { id : value; price : value }.

(** The header the driver returns for an [INSERT]. *)
Record ResultSetHeader : Type := { insertId : value }.

(** What [secretsManager.getSecretValue] resolves to. *)
Record SecretValue : Type := {
  SecretString : option string;
  SecretBinary : option string
}.

(** The collaborators: the process environment, the secret store and
    the three statements sent through the pool.  [inl e] is a rejected
    promise. *)
Record World : Type := {
  env : string -> option string;
  getSecretValue : string -> result SecretValue;
  select_products : result (list value);
  select_prices : list value -> result (list ProductRow);
  insert_order : float -> result ResultSetHeader
}.

(** The statements issued through [pool.query], with their parameters. *)
Inductive call : Type :=
| SelectProducts                 (* SELECT id, name, price, image_url FROM products *)
| SelectPrices (ids : list value) (* SELECT id, price FROM products WHERE id IN (?) *)
| InsertOrder (total : float).    (* INSERT INTO orders (total_amount, created_at) VALUES (?, NOW()) *)

(** Options handed to [mysql.createPool]; the pool is identified with
    them. *)
Record Pool : Type := {
  pool_host : value;
  pool_user : value;
  pool_password : value;
  pool_database : value;
  pool_port : float;
  waitForConnections : bool;
  connectionLimit : Z;
  queueLimit : Z
}.

(** The response envelope. *)
Record envelope : Type := {
  statusCode : Z;
  headers : list (string * string);
  body : string
}.


(* ================================================================= *)
(** ** Computations: module state, call log, exceptions *)

(** A computation runs on the module-level variables ([S]) and the log
    of the statements issued so far, and ends with a value or an
    exception. *)
Definition M (S A : Type) : Type := S -> list call -> result A * S * list call.

Definition ret {S A} (a : A) : M S A := fun s l => (inr a, s, l).
Definition throw {S A} (e : exn) : M S A := fun s l => (inl e, s, l).
Definition bind {S A B} (m : M S A) (k : A -> M S B) : M S B :=
  fun s l =>
    match m s l with
    | (inl e, s', l') => (inl e, s', l')
    | (inr a, s', l') => k a s' l'
    end.
Definition lift {S A} (r : result A) : M S A := fun s l => (r, s, l).
Definition gets {S A} (f : S -> A) : M S A := fun s l => (inr (f s), s, l).
Definition modify {S} (f : S -> S) : M S unit := fun s l => (inr tt, f s, l).

(** [try { m } catch (err) { h err }]. *)
Definition try_catch {S A} (m : M S A) (h : exn -> M S A) : M S A :=
  fun s l =>
    match m s l with
    | (inl e, s', l') => h e s' l'
    | (inr a, s', l') => (inr a, s', l')
    end.

(** [await pool.query(...)]: the statement is logged, then the world
    answers. *)
Definition query {S A} (c : call) (answer : result A) : M S A :=
  fun s l => (answer, s, (l ++ [c])%list).

Declare Scope m_scope.
Delimit Scope m_scope with M.
Notation "x <- m ;; k" := (bind m (fun x => k))
  (at level 61, m at next level, right associativity) : m_scope.
Notation "m ;;; k" := (bind m (fun _ => k))
  (at level 61, right associativity) : m_scope.

(** The outcome of the pricing loop: it either returns from the handler
    or falls through with the accumulated total. *)
Inductive loop_exit : Type :=
| Return (r : envelope)
| Fallthrough (total : float).

(* ================================================================= *)
(** ** src/index.js *)

Module Index.

(** [cachedConfig = { host, user, password, database, port }]. *)
Record DbConfig : Type := {
  host : value;
  user : value;
  password : value;
  database : value;
  port : float
}.

(** The module-level variables [pool] and [cachedConfig]; [None] is
    the initial [undefined]. *)
Record Process : Type := {
  pool : option Pool;
  cachedConfig : option DbConfig
}.

Definition set_pool (p : Pool) (s : Process) : Process :=
  {| pool := Some p; cachedConfig := cachedConfig s |}.
Definition set_cachedConfig (c : DbConfig) (s : Process) : Process :=
  {| pool := pool s; cachedConfig := Some c |}.

Section Handlers.
Context {rt : JSRuntime}.
Variable W : World.

Local Open Scope m_scope.

(** The secret text that is parsed: [SecretString], or the decoded
    [SecretBinary] when the string is missing or empty; with neither,
    [JSON.parse] receives [undefined] and parses its name. *)
Definition secret_text (res : SecretValue) : string :=
  match SecretString res with
  | Some (String c s) => String c s
  | other =>
      match SecretBinary res with
      | Some (String c b) => base64_to_utf8 (String c b)
      | _ => match other with Some s => s | None => "undefined" end
      end
  end.

Definition getDbConfig : M Process DbConfig :=
  cached <- gets cachedConfig ;;
  match cached with
  | Some c => ret c
  | None =>
      match env W "DB_SECRET_ARN" with
      | None | Some EmptyString => throw (Error "Missing DB_SECRET_ARN env var")
      | Some secretArn =>
          res <- lift (getSecretValue W secretArn) ;;
          match JSON_parse (secret_text res) with
          | None => throw (SyntaxError "Unexpected token in JSON")
          | Some parsed =>
              host <- lift (get parsed "host") ;;
              user <- lift (get parsed "username") ;;
              password <- lift (get parsed "password") ;;
              database <- lift (dbname <- get parsed "dbname" ;;
                                if truthy dbname then ok dbname
                                else (db <- get parsed "database" ;;
                                      if truthy db then ok db
                                      else ok (VStr "storedb")))%res ;;
              p <- lift (get parsed "port") ;;
              port <- lift (if truthy p then ToNumber p else ok 3306%float) ;;
              if negb (truthy host) || negb (truthy user) || negb (truthy password)
              then throw (Error "DB secret missing required fields")
              else
                let cfg := {| host := host; user := user; password := password;
                              database := database; port := port |} in
                modify (set_cachedConfig cfg) ;;;
                ret cfg
          end
      end
  end.

(** [mysql.createPool] only records its options: connections are
    opened by the queries. *)
Definition getPool : M Process Pool :=
  p <- gets pool ;;
  match p with
  | Some p => ret p
  | None =>
      cfg <- getDbConfig ;;
      let p := {| pool_host := host cfg;
                  pool_user := user cfg;
                  pool_password := password cfg;
                  pool_database := database cfg;
                  pool_port := port cfg;
                  waitForConnections := true;
                  connectionLimit := 5;
                  queueLimit := 0 |} in
      modify (set_pool p) ;;;
      ret p
  end.

Definition response (statusCode : Z) (body : value) : envelope :=
  {| statusCode := statusCode;
     headers := [("Content-Type", "application/json");
                 ("Access-Control-Allow-Origin", "*");
                 ("Access-Control-Allow-Headers", "Content-Type");
                 ("Access-Control-Allow-Methods", "GET,POST,OPTIONS")];
     body := JSON_stringify body |}.

Definition health : M Process envelope :=
  ret (response 200 (VObj [("status", VStr "ok")])).

Definition getProducts : M Process envelope :=
  try_catch
    (_ <- getPool ;;
     rows <- query SelectProducts (select_products W) ;;
     ret (response 200 (VArr rows)))
    (fun err => ret (response 500 (VObj [("error", VStr "DB_ERROR")]))).

(** [item.quantity ? Number(item.quantity) : 1] *)
Definition resolve_quantity (item : value) : result float :=
  (q <- get item "quantity" ;;
   if truthy q then ToNumber q else ok 1%float)%res.

(** The [for (const item of items)] loop, from the running total. *)
Fixpoint price_items (priceMap : JsMap float) (items : list value) (total : float)
  : result loop_exit :=
  match items with
  | [] => ok (Fallthrough total)
  | item :: rest =>
      (qty <- resolve_quantity item ;;
       productId <- get item "productId" ;;
       match Map_get priceMap productId with
       | None =>
           ok (Return (response 400 (VObj [("error", VStr "PRODUCT_NOT_FOUND");
                                           ("productId", productId)])))
       | Some price => price_items priceMap rest (total + price * qty)%float
       end)%res
  end.

(** The body of the [try] block of [createOrder]. *)
Definition createOrder_body (event : value) : M Process envelope :=
  body <- lift (get event "body") ;;
  if negb (truthy body)
  then ret (response 400 (VObj [("error", VStr "EMPTY_BODY")]))
  else
    match JSON_parse_value body with
    | inl _ => ret (response 400 (VObj [("error", VStr "INVALID_JSON")]))
    | inr payload =>
        items <- lift (get payload "items") ;;
        match items with
        | VArr (first :: others) =>
            let items := first :: others in
            _ <- getPool ;;
            ids <- lift (mapR (fun i => get i "productId") items) ;;
            products <- query (SelectPrices ids) (select_prices W ids) ;;
            entries <- lift (mapR (fun p => (n <- ToNumber (price p) ;; ok (id p, n))%res)
                                  products) ;;
            let priceMap := Map_new entries in
            exit <- lift (price_items priceMap items 0%float) ;;
            match exit with
            | Return r => ret r
            | Fallthrough total =>
                _ <- query (InsertOrder total) (insert_order W total) ;;
                ret (response 201 (VObj [("status", VStr "ok"); ("total", VNum total)]))
            end
        | _ => ret (response 400 (VObj [("error", VStr "EMPTY_CART")]))
        end
    end.

Definition createOrder (event : value) : M Process envelope :=
  try_catch (createOrder_body event)
    (fun err => ret (response 500 (VObj [("error", VStr "DB_ERROR")]))).

End Handlers.
End Index.

(* ================================================================= *)
(** ** src/.aws-sam/build/HealthFunction/index.js *)

(** The packaged copy: the same handlers, over a pool configured from
    the process environment. *)
Module HealthFunction.

(** The only module-level variable is [pool]. *)
Record Process : Type := { pool : option Pool }.

Definition set_pool (p : Pool) (s : Process) : Process := {| pool := Some p |}.

Section Handlers.
Context {rt : JSRuntime}.
Variable W : World.

Local Open Scope m_scope.

(** [process.env.NAME] as a value. *)
Definition env_value (name : string) : value :=
  match env W name with
  | Some s => VStr s
  | None => VUndefined
  end.

Definition getPool : M Process Pool :=
  p <- gets pool ;;
  match p with
  | Some p => ret p
  | None =>
      let p := {| pool_host := env_value "DB_HOST";
                  pool_user := env_value "DB_USER";
                  pool_password := env_value "DB_PASSWORD";
                  pool_database := if truthy (env_value "DB_NAME")
                                   then env_value "DB_NAME" else VStr "tienda";
                  pool_port := match env W "DB_PORT" with
                               | Some (String c t) => StringToNumber (String c t)
                               | _ => 3306%float
                               end;
                  waitForConnections := true;
                  connectionLimit := 5;
                  queueLimit := 0 |} in
      modify (set_pool p) ;;;
      ret p
  end.

Definition response (statusCode : Z) (body : value) : envelope :=
  {| statusCode := statusCode;
     headers := [("Content-Type", "application/json");
                 ("Access-Control-Allow-Origin", "*");
                 ("Access-Control-Allow-Headers", "Content-Type");
                 ("Access-Control-Allow-Methods", "GET,POST,OPTIONS")];
     body := JSON_stringify body |}.

Definition health : M Process envelope :=
  ret (response 200 (VObj [("status", VStr "ok")])).

Definition getProducts : M Process envelope :=
  try_catch
    (_ <- getPool ;;
     rows <- query SelectProducts (select_products W) ;;
     ret (response 200 (VArr rows)))
    (fun err => ret (response 500 (VObj [("error", VStr "DB_ERROR")]))).

Definition resolve_quantity (item : value) : result float :=
  (q <- get item "quantity" ;;
   if truthy q then ToNumber q else ok 1%float)%res.

Fixpoint price_items (priceMap : JsMap float) (items : list value) (total : float)
  : result loop_exit :=
  match items with
  | [] => ok (Fallthrough total)
  | item :: rest =>
      (qty <- resolve_quantity item ;;
       productId <- get item "productId" ;;
       match Map_get priceMap productId with
       | None =>
           ok (Return (response 400 (VObj [("error", VStr "PRODUCT_NOT_FOUND");
                                           ("productId", productId)])))
       | Some price => price_items priceMap rest (total + price * qty)%float
       end)%res
  end.

Definition createOrder_body (event : value) : M Process envelope :=
  body <- lift (get event "body") ;;
  if negb (truthy body)
  then ret (response 400 (VObj [("error", VStr "EMPTY_BODY")]))
  else
    match JSON_parse_value body with
    | inl _ => ret (response 400 (VObj [("error", VStr "INVALID_JSON")]))
    | inr payload =>
        items <- lift (get payload "items") ;;
        match items with
        | VArr (first :: others) =>
            let items := first :: others in
            _ <- getPool ;;
            ids <- lift (mapR (fun i => get i "productId") items) ;;
            products <- query (SelectPrices ids) (select_prices W ids) ;;
            entries <- lift (mapR (fun p => (n <- ToNumber (price p) ;; ok (id p, n))%res)
                                  products) ;;
            let priceMap := Map_new entries in
            exit <- lift (price_items priceMap items 0%float) ;;
            match exit with
            | Return r => ret r
            | Fallthrough total =>
                _ <- query (InsertOrder total) (insert_order W total) ;;
                ret (response 201 (VObj [("status", VStr "ok"); ("total", VNum total)]))
            end
        | _ => ret (response 400 (VObj [("error", VStr "EMPTY_CART")]))
        end
    end.

Definition createOrder (event : value) : M Process envelope :=
  try_catch (createOrder_body event)
    (fun err => ret (response 500 (VObj [("error", VStr "DB_ERROR")]))).

End Handlers.
End HealthFunction.

(* ================================================================= *)
(** ** A reference runtime *)

(** An executable instance of [JSRuntime], used to run the handlers on
    concrete requests.  A [string] is read as the UTF-8 encoding of the
    JavaScript string. *)
Module Reference.

Local Open Scope Z_scope.

Definition code (c : ascii) : Z := Z.of_N (N_of_ascii c).
Definition chr (n : Z) : ascii := ascii_of_N (Z.to_N n).

Definition is_digit (c : ascii) : bool := (48 <=? code c) && (code c <=? 57).
Definition digit_val (c : ascii) : Z := code c - 48.

Definition hex_val (c : ascii) : option Z :=
  let n := code c in
  if (48 <=? n) && (n <=? 57) then Some (n - 48)
  else if (65 <=? n) && (n <=? 70) then Some (n - 55)
  else if (97 <=? n) && (n <=? 102) then Some (n - 87)
  else None.

(** The longest prefix of decimal digits, and what follows it. *)
Fixpoint span_digits (cs : list ascii) : list ascii * list ascii :=
  match cs with
  | c :: rest =>
      if is_digit c
      then let (ds, r) := span_digits rest in (c :: ds, r)
      else ([], cs)
  | [] => ([], [])
  end.

Definition digits_value (ds : list ascii) : Z :=
  fold_left (fun acc c => 10 * acc + digit_val c) ds 0.

(** *** Decimal text to binary64 *)

(** Number of binary digits of a non-negative integer. *)
Definition bits (n : Z) : Z := Z.log2 n + 1.

(** The binary64 value nearest to [m * 10^e] (ties to even), for
    [m > 0].  The first two tests bound the decimal logarithm of the
    number by that of its leading bit (0.30102 < log 2 < 0.30103) and
    settle what lies beyond the range without computing it.  For a
    negative exponent the quotient is computed with more than 64
    significant bits and one extra low bit that records a non-zero
    remainder, so that a single final rounding is exact. *)
Definition round_decimal (m e : Z) : float :=
  if 31000000 <=? (bits m - 1) * 30102 + e * 100000 then infinity  (* 10^310 or more *)
  else if bits m * 30103 + e * 100000 <=? -32600000 then zero      (* below 10^-326 *)
  else if 0 <=? e then SF2Prim (binary_normalize prec emax (m * 10 ^ e) 0 false)
  else
    let d := 10 ^ (- e) in
    let s := Z.max 0 (66 + bits d - bits m) in
    let n := m * 2 ^ s in
    let q := n / d in
    let sticky := if n mod d =? 0 then 0 else 1 in
    SF2Prim (binary_normalize prec emax (2 * q + sticky) (- s - 1) false).

Definition decimal_to_float (neg : bool) (m e : Z) : float :=
  let x := if m =? 0 then zero else round_decimal m e in
  if neg then PrimFloat.opp x else x.

(** The digits of an optional exponent part [e[+-]ddd]; [None] when
    the text after the mantissa is not an exponent. *)
Definition exponent_part (cs : list ascii) : option (Z * list ascii) :=
  match cs with
  | c :: rest =>
      if (code c =? 101) || (code c =? 69) then
        let '(neg, rest') :=
          match rest with
          | "+"%char :: r => (false, r)
          | "-"%char :: r => (true, r)
          | _ => (false, rest)
          end in
        match span_digits rest' with
        | ([], _) => None
        | (ds, r) => Some (if neg then - digits_value ds else digits_value ds, r)
        end
      else Some (0, cs)
  | [] => Some (0, [])
  end.

(** A JSON number: an optional minus sign, an integer part without
    superfluous leading zero, an optional fraction and an optional
    exponent. *)
Definition parse_number (cs : list ascii) : option (float * list ascii) :=
  let '(neg, cs1) := match cs with "-"%char :: r => (true, r) | _ => (false, cs) end in
  match span_digits cs1 with
  | ([], _) => None
  | (ip, cs2) =>
      let leading_zero := match ip with "0"%char :: _ :: _ => true | _ => false end in
      if leading_zero then None else
      let frac :=
        match cs2 with
        | "."%char :: r =>
            match span_digits r with
            | ([], _) => None
            | (fs, r') => Some (fs, r')
            end
        | _ => Some ([], cs2)
        end in
      match frac with
      | None => None
      | Some (fs, cs3) =>
          match exponent_part cs3 with
          | None => None
          | Some (ex, cs4) =>
              Some (decimal_to_float neg (digits_value (ip ++ fs))
                                     (ex - Z.of_nat (List.length fs)), cs4)
          end
      end
  end.

(** *** Strings *)

(** UTF-8 encoding of a code point (a lone surrogate is encoded like
    any other three-byte code point). *)
Definition utf8 (u : Z) : list ascii :=
  if u <? 128 then [chr u]
  else if u <? 2048 then [chr (192 + u / 64); chr (128 + u mod 64)]
  else if u <? 65536 then
    [chr (224 + u / 4096); chr (128 + (u / 64) mod 64); chr (128 + u mod 64)]
  else
    [chr (240 + u / 262144); chr (128 + (u / 4096) mod 64);
     chr (128 + (u / 64) mod 64); chr (128 + u mod 64)].

Definition hex4 (a b c d : ascii) : option Z :=
  match hex_val a, hex_val b, hex_val c, hex_val d with
  | Some x, Some y, Some z, Some w => Some (((x * 16 + y) * 16 + z) * 16 + w)
  | _, _, _, _ => None
  end.

(** The characters of a JSON string, after its opening quote
    (code 34); a backslash (code 92) starts an escape. *)
Fixpoint parse_string (cs : list ascii) : option (list ascii * list ascii) :=
  let continue (bytes : list ascii) (rest : option (list ascii * list ascii)) :=
    match rest with
    | Some (s, r) => Some ((bytes ++ s)%list, r)
    | None => None
    end in
  match cs with
  | [] => None
  | c :: rest =>
      if code c =? 34 then Some ([], rest)
      else if code c =? 92 then
        match rest with
        | [] => None
        | e :: rest0 =>
            if code e =? 34 then continue [e] (parse_string rest0)
            else if code e =? 92 then continue [e] (parse_string rest0)
            else match e with
            | "/"%char => continue [e] (parse_string rest0)
            | "b"%char => continue [chr 8] (parse_string rest0)
            | "f"%char => continue [chr 12] (parse_string rest0)
            | "n"%char => continue [chr 10] (parse_string rest0)
            | "r"%char => continue [chr 13] (parse_string rest0)
            | "t"%char => continue [chr 9] (parse_string rest0)
            | "u"%char =>
                match rest0 with
                | a :: b :: c :: d :: rest1 =>
                    match hex4 a b c d with
                    | None => None
                    | Some hi =>
                        let single := continue (utf8 hi) (parse_string rest1) in
                        if (55296 <=? hi) && (hi <=? 56319) then
                          match rest1 with
                          | bs :: "u"%char :: a' :: b' :: c' :: d' :: rest2 =>
                              match hex4 a' b' c' d' with
                              | Some lo =>
                                  if (code bs =? 92) && (56320 <=? lo) && (lo <=? 57343)
                                  then continue
                                         (utf8 (65536 + (hi - 55296) * 1024 + (lo - 56320)))
                                         (parse_string rest2)
                                  else single
                              | None => single
                              end
                          | _ => single
                          end
                        else single
                    end
                | _ => None
                end
            | _ => None
            end
        end
      else if code c <? 32 then None
      else continue [c] (parse_string rest)
  end.

(** *** Objects *)

(** A canonical array index: the decimal text of an integer below
    [2^32 - 1], without leading zero. *)
Definition array_index (k : string) : option Z :=
  match list_ascii_of_string k with
  | [] => None
  | "0"%char :: _ :: _ => None
  | cs =>
      if forallb is_digit cs && (Z.of_nat (List.length cs) <=? 10)
      then let n := digits_value cs in
           if n <? 4294967295 then Some n else None
      else None
  end.

(** Define or overwrite an own property.  A new index key goes among
    the index keys, in ascending order; any other new key goes last. *)
Fixpoint obj_set (props : list (string * value)) (k : string) (v : value)
  : list (string * value) :=
  match props with
  | [] => [(k, v)]
  | (k', v') :: rest =>
      if String.eqb k' k then (k', v) :: rest
      else
        let before :=
          match array_index k, array_index k' with
          | Some i, Some j => i <? j
          | Some _, None => true
          | None, _ => false
          end in
        if before && negb (existsb (fun kv => String.eqb (fst kv) k) rest)
        then (k, v) :: (k', v') :: rest
        else (k', v') :: obj_set rest k v
  end.

(** *** JSON.parse *)

Fixpoint skip_ws (cs : list ascii) : list ascii :=
  match cs with
  | c :: rest =>
      if (code c =? 32) || (code c =? 9) || (code c =? 10) || (code c =? 13)
      then skip_ws rest else cs
  | [] => []
  end.

(** Recursive descent; [fuel] bounds the depth of the calls, which
    never exceeds the number of characters read. *)
Fixpoint parse_value (fuel : nat) (cs : list ascii) : option (value * list ascii) :=
  match fuel with
  | O => None
  | S fuel =>
      match skip_ws cs with
      | "{"%char :: rest =>
          match skip_ws rest with
          | "}"%char :: r => Some (VObj [], r)
          | r => parse_members fuel r []
          end
      | "["%char :: rest =>
          match skip_ws rest with
          | "]"%char :: r => Some (VArr [], r)
          | r => parse_elements fuel r []
          end
      | "t"%char :: "r"%char :: "u"%char :: "e"%char :: r => Some (VBool true, r)
      | "f"%char :: "a"%char :: "l"%char :: "s"%char :: "e"%char :: r => Some (VBool false, r)
      | "n"%char :: "u"%char :: "l"%char :: "l"%char :: r => Some (VNull, r)
      | c :: rest =>
          if code c =? 34 then
            match parse_string rest with
            | Some (s, r) => Some (VStr (string_of_list_ascii s), r)
            | None => None
            end
          else
            match parse_number (c :: rest) with
            | Some (n, r) => Some (VNum n, r)
            | None => None
            end
      | [] => None
      end
  end
with parse_elements (fuel : nat) (cs : list ascii) (acc : list value)
  : option (value * list ascii) :=
  match fuel with
  | O => None
  | S fuel =>
      match parse_value fuel cs with
      | None => None
      | Some (v, r) =>
          match skip_ws r with
          | ","%char :: r' => parse_elements fuel r' (v :: acc)
          | "]"%char :: r' => Some (VArr (rev (v :: acc)), r')
          | _ => None
          end
      end
  end
with parse_members (fuel : nat) (cs : list ascii) (acc : list (string * value))
  : option (value * list ascii) :=
  match fuel with
  | O => None
  | S fuel =>
      match skip_ws cs with
      | q :: r =>
          if code q =? 34 then
            match parse_string r with
            | None => None
            | Some (k, r1) =>
                match skip_ws r1 with
                | ":"%char :: r2 =>
                    match parse_value fuel r2 with
                    | None => None
                    | Some (v, r3) =>
                        let acc' := obj_set acc (string_of_list_ascii k) v in
                        match skip_ws r3 with
                        | ","%char :: r4 => parse_members fuel r4 acc'
                        | "}"%char :: r4 => Some (VObj acc', r4)
                        | _ => None
                        end
                    end
                | _ => None
                end
            end
          else None
      | [] => None
      end
  end.

Definition parse (text : string) : option value :=
  let cs := list_ascii_of_string text in
  match parse_value (2 * List.length cs + 2) cs with
  | Some (v, r) => match skip_ws r with [] => Some v | _ => None end
  | None => None
  end.

(** *** Number applied to a string *)

(** Drops leading white space and line terminators: the ASCII ones,
    and the UTF-8 encodings of U+00A0, U+1680, U+2000..U+200A, U+2028,
    U+2029, U+202F, U+205F, U+3000 and U+FEFF. *)
Fixpoint trim_left (cs : list ascii) : list ascii :=
  match cs with
  | [] => []
  | c :: rest =>
      let n := code c in
      if ((9 <=? n) && (n <=? 13)) || (n =? 32) then trim_left rest
      else
        match rest with
        | c1 :: rest1 =>
            let n1 := code c1 in
            if (n =? 194) && (n1 =? 160) then trim_left rest1
            else
              match rest1 with
              | c2 :: rest2 =>
                  let n2 := code c2 in
                  if ((n =? 225) && (n1 =? 154) && (n2 =? 128))
                     || ((n =? 226) && (n1 =? 128)
                         && (((128 <=? n2) && (n2 <=? 138))
                             || (n2 =? 168) || (n2 =? 169) || (n2 =? 175)))
                     || ((n =? 226) && (n1 =? 129) && (n2 =? 159))
                     || ((n =? 227) && (n1 =? 128) && (n2 =? 128))
                     || ((n =? 239) && (n1 =? 187) && (n2 =? 191))
                  then trim_left rest2 else cs
              | [] => cs
              end
        | [] => cs
        end
  end.

Fixpoint trim_right (cs : list ascii) : list ascii :=
  match cs with
  | [] => []
  | c :: rest =>
      match trim_left cs with
      | [] => []
      | _ :: _ => c :: trim_right rest
      end
  end.

Definition trim (cs : list ascii) : list ascii := trim_right (trim_left cs).

Definition of_integer (n : Z) : float :=
  SF2Prim (binary_normalize prec emax n 0 false).

(** Digits in base [b], all of the text; [None] if empty or if a
    character is not a digit of that base. *)
Definition radix_value (b : Z) (cs : list ascii) : option Z :=
  match cs with
  | [] => None
  | _ =>
      fold_left (fun acc c =>
                   match acc, hex_val c with
                   | Some a, Some d => if d <? b then Some (a * b + d) else None
                   | _, _ => None
                   end) cs (Some 0)
  end.

(** StrUnsignedDecimalLiteral, all of the text. *)
Definition unsigned_decimal (neg : bool) (cs : list ascii) : float :=
  if list_eq_dec ascii_dec cs (list_ascii_of_string "Infinity")
  then (if neg then neg_infinity else infinity)
  else
    let (ip, cs1) := span_digits cs in
    let '(fs, cs2, dot) :=
      match cs1 with
      | "."%char :: r => let (fs, r') := span_digits r in (fs, r', true)
      | _ => ([], cs1, false)
      end in
    match ip, fs with
    | [], [] => nan
    | _, _ =>
        match exponent_part cs2 with
        | Some (ex, []) =>
            decimal_to_float neg (digits_value (ip ++ fs)) (ex - Z.of_nat (List.length fs))
        | _ => nan
        end
    end.

Definition string_to_number (s : string) : float :=
  match trim (list_ascii_of_string s) with
  | [] => zero
  | "0"%char :: x :: rest =>
      let radix :=
        match x with
        | "x"%char | "X"%char => Some 16
        | "o"%char | "O"%char => Some 8
        | "b"%char | "B"%char => Some 2
        | _ => None
        end in
      match radix with
      | Some b =>
          match radix_value b rest with
          | Some n => of_integer n
          | None => nan
          end
      | None => unsigned_decimal false ("0"%char :: x :: rest)
      end
  | "+"%char :: rest => unsigned_decimal false rest
  | "-"%char :: rest => unsigned_decimal true rest
  | cs => unsigned_decimal false cs
  end.

(** *** Number to text *)

Definition digit_char (d : Z) : ascii := chr (48 + d).

Fixpoint decimal_digits (fuel : nat) (n : Z) (acc : list ascii) : list ascii :=
  match fuel with
  | O => acc
  | S fuel =>
      if n <? 10 then digit_char n :: acc
      else decimal_digits fuel (n / 10) (digit_char (n mod 10) :: acc)
  end.

(** The decimal digits of a non-negative integer. *)
Definition digits_of (n : Z) : list ascii :=
  decimal_digits (Z.to_nat (bits n)) n [].

(** [m * 2^e * 10^p] as a fraction. *)
Definition scaled (m e p : Z) : Z * Z :=
  (m * 2 ^ Z.max e 0 * 10 ^ Z.max p 0, 2 ^ Z.max (- e) 0 * 10 ^ Z.max (- p) 0).

(** The [n] with [10^(n-1) <= m * 2^e < 10^n]. *)
Definition decimal_exponent (m e : Z) : Z :=
  let est := (bits m + e) * 1233 / 4096 in
  let fits (n : Z) :=
    let (a, b) := scaled m e (1 - n) in
    (b <=? a) && (a <? 10 * b) in
  if fits est then est
  else if fits (est + 1) then est + 1
  else if fits (est - 1) then est - 1
  else est + 2.

(** The integers next to [m * 2^e * 10^(k-n)], nearest first. *)
Definition candidates (m e n k : Z) : list Z :=
  let (a, b) := scaled m e (k - n) in
  let lo := a / b in
  let r := a mod b in
  if r =? 0 then [lo]
  else if 2 * r <? b then [lo; lo + 1]
  else if b <? 2 * r then [lo + 1; lo]
  else if Z.even lo then [lo; lo + 1] else [lo + 1; lo].

(** The shortest decimal [s * 10^q] that reads back as [x = m * 2^e],
    trying [k] digits, then [k + 1], ... *)
Fixpoint shortest (fuel : nat) (x : float) (m e n k : Z) : Z * Z :=
  let good := filter (fun c => PrimFloat.eqb (round_decimal c (n - k)) x)
                     (candidates m e n k) in
  match good, fuel with
  | c :: _, _ => (c, n - k)
  | [], S fuel => shortest fuel x m e n (k + 1)
  | [], O => (match candidates m e n k with c :: _ => c | [] => 0 end, n - k)
  end.

(** Removes the trailing zeros of the digits, raising the exponent. *)
Fixpoint strip_zeros (fuel : nat) (s q : Z) : Z * Z :=
  match fuel with
  | O => (s, q)
  | S fuel => if (s mod 10 =? 0) && negb (s =? 0) then strip_zeros fuel (s / 10) (q + 1)
              else (s, q)
  end.

Definition zeros (n : Z) : list ascii := repeat "0"%char (Z.to_nat n).

(** Number::toString of a positive finite number [m * 2^e]. *)
Definition positive_to_text (x : float) (m e : Z) : list ascii :=
  let n0 := decimal_exponent m e in
  let (s0, q0) := shortest 17 x m e n0 1 in
  let (s, q) := strip_zeros 20 s0 q0 in
  let ds := digits_of s in
  let k := Z.of_nat (List.length ds) in
  let n := q + k in
  if (k <=? n) && (n <=? 21) then (ds ++ zeros (n - k))%list
  else if (0 <? n) && (n <=? 21)
       then (firstn (Z.to_nat n) ds ++ "."%char :: skipn (Z.to_nat n) ds)%list
  else if (-6 <? n) && (n <=? 0)
       then ("0"%char :: "."%char :: zeros (- n) ++ ds)%list
  else
    let ex := n - 1 in
    let sign := if 0 <=? ex then "+"%char else "-"%char in
    let mant := match ds with
                | [d] => [d]
                | d :: more => d :: "."%char :: more
                | [] => []
                end in
    (mant ++ "e"%char :: sign :: digits_of (Z.abs ex))%list.

Definition number_to_string (x : float) : string :=
  if is_nan x then "NaN"
  else
    match Prim2SF x with
    | S754_zero _ => "0"
    | S754_infinity false => "Infinity"
    | S754_infinity true => "-Infinity"
    | S754_nan => "NaN"
    | S754_finite neg m e =>
        let text := positive_to_text (PrimFloat.abs x) (Zpos m) e in
        string_of_list_ascii (if neg then "-"%char :: text else text)
    end.

(** *** JSON.stringify *)

Definition hex_digit (d : Z) : ascii := if d <? 10 then chr (48 + d) else chr (87 + d).

(** The escape of a code unit: a backslash, [u] and four hexadecimal
    digits in lower case. *)
Definition unicode_escape (u : Z) : list ascii :=
  [chr 92; "u"%char; hex_digit (u / 4096); hex_digit ((u / 256) mod 16);
   hex_digit ((u / 16) mod 16); hex_digit (u mod 16)].

(** QuoteJSONString, without the surrounding quotes.  A surrogate that
    stands alone is written as its escape; in the UTF-8 reading of a
    string it is the three bytes that start with 237 and go on with a
    byte from 160 to 191 (a pair of surrogates is one four-byte
    sequence). *)
Fixpoint escape (cs : list ascii) : list ascii :=
  match cs with
  | [] => []
  | c :: rest =>
      let n := code c in
      let e :=
        if (n =? 34) || (n =? 92) then [chr 92; c]
        else if n =? 8 then [chr 92; "b"%char]
        else if n =? 12 then [chr 92; "f"%char]
        else if n =? 10 then [chr 92; "n"%char]
        else if n =? 13 then [chr 92; "r"%char]
        else if n =? 9 then [chr 92; "t"%char]
        else if n <? 32
             then [chr 92; "u"%char; "0"%char; "0"%char; hex_digit (n / 16); hex_digit (n mod 16)]
        else [c] in
      match rest with
      | c1 :: c2 :: rest2 =>
          if (n =? 237) && (160 <=? code c1) && (code c1 <=? 191)
             && (128 <=? code c2) && (code c2 <=? 191)
          then (unicode_escape (53248 + (code c1 - 128) * 64 + (code c2 - 128))
                  ++ escape rest2)%list
          else (e ++ escape rest)%list
      | _ => (e ++ escape rest)%list
      end
  end.

Definition quote (s : string) : string :=
  string_of_list_ascii (chr 34 :: escape (list_ascii_of_string s) ++ [chr 34])%list.

Definition join (sep : string) (parts : list string) : string :=
  match parts with
  | [] => ""
  | p :: more => fold_left (fun acc t => acc ++ sep ++ t) more p
  end.

(** SerializeJSONProperty; [None] is [undefined]: such a property is
    left out of an object and printed as [null] in an array. *)
Fixpoint serialize (v : value) : option string :=
  match v with
  | VUndefined => None
  | VNull => Some "null"
  | VBool true => Some "true"
  | VBool false => Some "false"
  | VNum n => Some (if is_finite n then number_to_string n else "null")
  | VStr s => Some (quote s)
  | VArr elems =>
      Some ("[" ++ join ","
              ((fix each (l : list value) : list string :=
                  match l with
                  | [] => []
                  | x :: rest =>
                      match serialize x with
                      | Some t => t :: each rest
                      | None => "null" :: each rest
                      end
                  end) elems) ++ "]")
  | VObj props =>
      Some ("{" ++ join ","
              ((fix each (l : list (string * value)) : list string :=
                  match l with
                  | [] => []
                  | (k, x) :: rest =>
                      match serialize x with
                      | Some t => (quote k ++ ":" ++ t) :: each rest
                      | None => each rest
                      end
                  end) props) ++ "}")
  end.

(** [JSON.stringify(v)]; the handlers only serialize objects and
    arrays, for which the result is always a string. *)
Definition stringify (v : value) : string :=
  match serialize v with
  | Some t => t
  | None => "undefined"
  end.

(** *** Buffer.from(text, base64).toString(utf8) *)

Definition base64_val (c : ascii) : option Z :=
  let n := code c in
  if (65 <=? n) && (n <=? 90) then Some (n - 65)
  else if (97 <=? n) && (n <=? 122) then Some (n - 71)
  else if (48 <=? n) && (n <=? 57) then Some (n + 4)
  else if (n =? 43) || (n =? 45) then Some 62
  else if (n =? 47) || (n =? 95) then Some 63
  else None.

(** The six-bit groups up to the padding; other characters are skipped. *)
Fixpoint sextets (cs : list ascii) : list Z :=
  match cs with
  | [] => []
  | c :: rest =>
      if code c =? 61 then []
      else match base64_val c with
           | Some v => v :: sextets rest
           | None => sextets rest
           end
  end.

Fixpoint octets (l : list Z) : list ascii :=
  match l with
  | a :: b :: c :: d :: rest =>
      chr (a * 4 + b / 16) :: chr ((b mod 16) * 16 + c / 4) :: chr ((c mod 4) * 64 + d)
        :: octets rest
  | [a; b; c] => [chr (a * 4 + b / 16); chr ((b mod 16) * 16 + c / 4)]
  | [a; b] => [chr (a * 4 + b / 16)]
  | _ => []
  end.

(** U+FFFD, the replacement character, in UTF-8. *)
Definition replacement : list ascii := [chr 239; chr 191; chr 189].

Definition between (lo hi : Z) (c : ascii) : bool := (lo <=? code c) && (code c <=? hi).

(** [toString(utf8)] of a buffer: every well-formed UTF-8 sequence is
    kept; a byte that starts no sequence, and every longest prefix of a
    sequence that is cut short, is replaced by U+FFFD, the byte that cut
    it short being read again.  The second byte of a sequence is where
    overlong forms, surrogates and code points above U+10FFFF are
    excluded. *)
Fixpoint utf8_decode (bs : list ascii) : list ascii :=
  match bs with
  | [] => []
  | b :: rest =>
      let n := code b in
      if n <? 128 then b :: utf8_decode rest
      else if (194 <=? n) && (n <=? 223) then
        match rest with
        | [] => replacement
        | c1 :: rest1 =>
            if between 128 191 c1 then b :: c1 :: utf8_decode rest1
            else (replacement ++ utf8_decode rest)%list
        end
      else if (224 <=? n) && (n <=? 239) then
        match rest with
        | [] => replacement
        | c1 :: rest1 =>
            if between (if n =? 224 then 160 else 128) (if n =? 237 then 159 else 191) c1
            then match rest1 with
                 | [] => replacement
                 | c2 :: rest2 =>
                     if between 128 191 c2 then b :: c1 :: c2 :: utf8_decode rest2
                     else (replacement ++ utf8_decode rest1)%list
                 end
            else (replacement ++ utf8_decode rest)%list
        end
      else if (240 <=? n) && (n <=? 244) then
        match rest with
        | [] => replacement
        | c1 :: rest1 =>
            if between (if n =? 240 then 144 else 128) (if n =? 244 then 143 else 191) c1
            then match rest1 with
                 | [] => replacement
                 | c2 :: rest2 =>
                     if between 128 191 c2
                     then match rest2 with
                          | [] => replacement
                          | c3 :: rest3 =>
                              if between 128 191 c3
                              then b :: c1 :: c2 :: c3 :: utf8_decode rest3
                              else (replacement ++ utf8_decode rest2)%list
                          end
                     else (replacement ++ utf8_decode rest1)%list
                 end
            else (replacement ++ utf8_decode rest)%list
        end
      else (replacement ++ utf8_decode rest)%list
  end.

Definition decode_base64 (s : string) : string :=
  string_of_list_ascii (utf8_decode (octets (sextets (list_ascii_of_string s)))).

Definition runtime : JSRuntime :=
  {| JSON_parse := parse;
     JSON_stringify := stringify;
     StringToNumber := string_to_number;
     NumberToString := number_to_string;
     base64_to_utf8 := decode_base64 |}.

End Reference.

(* ================================================================= *)
(** ** Vocabulary of the specification *)

Section Vocabulary.
Context {rt : JSRuntime}.

(** Where a request stands after validation steps 1 to 3: the body is
    missing or empty; it is not JSON; reading [body] from the event or
    [items] from the payload throws (the event or the payload is
    [null]); [items] is not a non-empty array; or the request carries
    a cart. *)
Inductive validation : Type :=
| EmptyBody
| InvalidJson
| Unreadable
| EmptyCart
| Cart (items : list value).

(** The checks of [createOrder], in the order in which it makes them. *)
Definition validate (event : value) : validation :=
  match get event "body" with
  | inl _ => Unreadable
  | inr body =>
      if negb (truthy body) then EmptyBody
      else
        match JSON_parse_value body with
        | inl _ => InvalidJson
        | inr payload =>
            match get payload "items" with
            | inl _ => Unreadable
            | inr (VArr (first :: others)) => Cart (first :: others)
            | inr _ => EmptyCart
            end
        end
  end.

(** The [productId] of every item, in input order. *)
Definition productIds (items : list value) : result (list value) :=
  mapR (fun i => get i "productId") items.

(** The price map built from the rows of the catalog lookup. *)
Definition price_entries (products : list ProductRow) : result (list (value * float)) :=
  mapR (fun p => (n <- ToNumber (price p) ;; ok (id p, n))%res) products.

(** An order line: the price and the resolved quantity of one item. *)
Definition line : Type := (float * float)%type.

(** An item resolves to a line when its [productId] has a price in
    the map and its quantity resolves to a number. *)
Definition resolves (priceMap : JsMap float) (item : value) (l : line) : Prop :=
  exists productId,
    get item "productId" = ok productId /\
    Map_get priceMap productId = Some (fst l) /\
    Index.resolve_quantity item = ok (snd l).

(** The [productId] of the item has no price in the map. *)
Definition unpriced (priceMap : JsMap float) (item : value) (productId : value) : Prop :=
  get item "productId" = ok productId /\ Map_get priceMap productId = None.

(** The sum of [price * quantity] over the lines, accumulated in
    input order from zero. *)
Definition sum_lines (lines : list line) : float :=
  fold_left (fun total l => (total + fst l * snd l)%float) lines 0%float.

(** A quantity field that is absent or falsy: missing, [undefined],
    [null], [false], a zero, [NaN] or the empty string. *)
Definition absent_or_falsy (field : option value) : bool :=
  match field with
  | None => true
  | Some VUndefined => true
  | Some VNull => true
  | Some (VBool b) => negb b
  | Some (VNum n) => is_zero n || is_nan n
  | Some (VStr EmptyString) => true
  | Some _ => false
  end.

(** An object in the sense of the language: a plain object or an
    array. *)
Definition is_object (v : value) : Prop :=
  match v with
  | VArr _ | VObj _ => True
  | _ => False
  end.

(** The catalog lookups among the calls, by the ids they send. *)
Definition lookups (calls : list call) : list (list value) :=
  flat_map (fun c => match c with SelectPrices ids => [ids] | _ => [] end) calls.

(** The order-store writes among the calls, by their amount. *)
Definition writes (calls : list call) : list float :=
  flat_map (fun c => match c with InsertOrder t => [t] | _ => [] end) calls.

(** The bodies handed to [response]. *)
Definition DB_ERROR : value := VObj [("error", VStr "DB_ERROR")].
Definition PRODUCT_NOT_FOUND (productId : value) : value :=
  VObj [("error", VStr "PRODUCT_NOT_FOUND"); ("productId", productId)].
Definition ORDER_OK (total : float) : value :=
  VObj [("status", VStr "ok"); ("total", VNum total)].

(** The property [k] of a parsed secret; [undefined] when missing. *)
Definition field (parsed : value) (k : string) : value :=
  match get parsed k with
  | inr v => v
  | inl _ => VUndefined
  end.

(** A field is supplied when its value is truthy. *)
Definition supplies (parsed : value) (k : string) : bool := truthy (field parsed k).

(** The database name: [dbname], else [database], else the fixed store
    name. *)
Definition resolved_database (parsed : value) : value :=
  if supplies parsed "dbname" then field parsed "dbname"
  else if supplies parsed "database" then field parsed "database"
  else VStr "storedb".

(** The port: the numeric coercion of [port] when supplied, else 3306. *)
Definition resolved_port (parsed : value) : result float :=
  if supplies parsed "port" then ToNumber (field parsed "port") else ok 3306%float.

End Vocabulary.

(* ================================================================= *)
(** ** The ways through [createOrder] *)

Section Paths.
Context {rt : JSRuntime}.
Variable W : World.

(** Every run of [Index.createOrder] follows one of these paths, from
    the module state [s] and the log [l] to a response, a module state
    and a log. *)
Inductive createOrder_path (event : value) (s : Index.Process) (l : list call)
  : envelope -> Index.Process -> list call -> Prop :=
| path_empty_body :
    validate event = EmptyBody ->
    createOrder_path event s l
      (Index.response 400 (VObj [("error", VStr "EMPTY_BODY")])) s l
| path_invalid_json :
    validate event = InvalidJson ->
    createOrder_path event s l
      (Index.response 400 (VObj [("error", VStr "INVALID_JSON")])) s l
| path_unreadable :
    validate event = Unreadable ->
    createOrder_path event s l (Index.response 500 DB_ERROR) s l
| path_empty_cart :
    validate event = EmptyCart ->
    createOrder_path event s l
      (Index.response 400 (VObj [("error", VStr "EMPTY_CART")])) s l
| path_no_pool items e s' :
    validate event = Cart items ->
    Index.getPool W s l = (inl e, s', l) ->
    createOrder_path event s l (Index.response 500 DB_ERROR) s' l
| path_unreadable_item items p s' e :
    validate event = Cart items ->
    Index.getPool W s l = (inr p, s', l) ->
    productIds items = inl e ->
    createOrder_path event s l (Index.response 500 DB_ERROR) s' l
| path_lookup_failed items p s' ids e :
    validate event = Cart items ->
    Index.getPool W s l = (inr p, s', l) ->
    productIds items = ok ids ->
    select_prices W ids = inl e ->
    createOrder_path event s l (Index.response 500 DB_ERROR) s'
      (l ++ [SelectPrices ids])
| path_unreadable_price items p s' ids products e :
    validate event = Cart items ->
    Index.getPool W s l = (inr p, s', l) ->
    productIds items = ok ids ->
    select_prices W ids = ok products ->
    price_entries products = inl e ->
    createOrder_path event s l (Index.response 500 DB_ERROR) s'
      (l ++ [SelectPrices ids])
| path_loop_threw items p s' ids products entries e :
    validate event = Cart items ->
    Index.getPool W s l = (inr p, s', l) ->
    productIds items = ok ids ->
    select_prices W ids = ok products ->
    price_entries products = ok entries ->
    Index.price_items (Map_new entries) items 0%float = inl e ->
    createOrder_path event s l (Index.response 500 DB_ERROR) s'
      (l ++ [SelectPrices ids])
| path_not_found items p s' ids products entries r :
    validate event = Cart items ->
    Index.getPool W s l = (inr p, s', l) ->
    productIds items = ok ids ->
    select_prices W ids = ok products ->
    price_entries products = ok entries ->
    Index.price_items (Map_new entries) items 0%float = ok (Return r) ->
    createOrder_path event s l r s' (l ++ [SelectPrices ids])
| path_insert_failed items p s' ids products entries total e :
    validate event = Cart items ->
    Index.getPool W s l = (inr p, s', l) ->
    productIds items = ok ids ->
    select_prices W ids = ok products ->
    price_entries products = ok entries ->
    Index.price_items (Map_new entries) items 0%float = ok (Fallthrough total) ->
    insert_order W total = inl e ->
    createOrder_path event s l (Index.response 500 DB_ERROR) s'
      (l ++ [SelectPrices ids; InsertOrder total])
| path_created items p s' ids products entries total header :
    validate event = Cart items ->
    Index.getPool W s l = (inr p, s', l) ->
    productIds items = ok ids ->
    select_prices W ids = ok products ->
    price_entries products = ok entries ->
    Index.price_items (Map_new entries) items 0%float = ok (Fallthrough total) ->
    insert_order W total = ok header ->
    createOrder_path event s l (Index.response 201 (ORDER_OK total)) s'
      (l ++ [SelectPrices ids; InsertOrder total]).

End Paths.

(* ================================================================= *)
(** ** Sample requests and worlds *)

Module Sample.

(** A text in which every apostrophe stands for a double quote. *)
Definition js (text : string) : string :=
  string_of_list_ascii
    (map (fun c => if Ascii.eqb c "'"%char then ascii_of_nat 34 else c)
         (list_ascii_of_string text)).

(** The event of a request whose body is [text]. *)
Definition request (text : string) : value := VObj [("body", VStr (js text))].

(** A process that has served no request yet. *)
Definition fresh : Index.Process := {| Index.pool := None; Index.cachedConfig := None |}.
Definition fresh_copy : HealthFunction.Process := {| HealthFunction.pool := None |}.

(** A catalog with product A at 10. *)
Definition catalog_A10 : list ProductRow :=
  [ {| id := VStr "A"; price := VNum 10 |} ].

(** A catalog with product A at 5.00 (a DECIMAL column, returned as
    text) and product B at 3. *)
Definition catalog_AB : list ProductRow :=
  [ {| id := VStr "A"; price := VStr "5.00" |};
    {| id := VStr "B"; price := VNum 3 |} ].

(** The rows of [catalog] whose id is among [ids]. *)
Definition rows_in (catalog : list ProductRow) (ids : list value) : list ProductRow :=
  filter (fun row => existsb (sameValueZero (id row)) ids) catalog.

(** A world whose secret is [secret], whose catalog is [catalog] and
    whose order store accepts every order. *)
Definition world (arn : option string) (secret : string) (catalog : list ProductRow) : World :=
  {| env := fun name => if String.eqb name "DB_SECRET_ARN" then arn else None;
     getSecretValue := fun _ =>
       ok {| SecretString := Some (js secret); SecretBinary := None |};
     select_products := ok [];
     select_prices := fun ids => ok (rows_in catalog ids);
     insert_order := fun _ => ok {| insertId := VNum 1 |} |}.

Definition good_secret : string := "{'host':'db.internal','username':'app','password':'s3cret'}".

(** The secret names its user under the key [user]. *)
Definition user_secret : string := "{'host':'db.internal','user':'app','password':'s3cret'}".

Definition shop_A10 : World := world (Some "arn:secret") good_secret catalog_A10.
Definition shop_AB : World := world (Some "arn:secret") good_secret catalog_AB.

(** No secret is configured in the environment. *)
Definition unconfigured_shop : World := world None good_secret catalog_AB.

(** The database refuses every statement. *)
Definition shop_offline : World :=
  {| env := fun name => if String.eqb name "DB_SECRET_ARN" then Some "arn:secret" else None;
     getSecretValue := fun _ =>
       ok {| SecretString := Some (js good_secret); SecretBinary := None |};
     select_products := raise (Rejected "connect ECONNREFUSED 10.0.3.7:3306");
     select_prices := fun _ => raise (Rejected "connect ECONNREFUSED 10.0.3.7:3306");
     insert_order := fun _ => raise (Rejected "connect ECONNREFUSED 10.0.3.7:3306") |}.

(** The catalog answers, the order store refuses the write. *)
Definition shop_readonly : World :=
  {| env := fun name => if String.eqb name "DB_SECRET_ARN" then Some "arn:secret" else None;
     getSecretValue := fun _ =>
       ok {| SecretString := Some (js good_secret); SecretBinary := None |};
     select_products := ok [];
     select_prices := fun ids => ok (rows_in catalog_AB ids);
     insert_order := fun _ =>
       raise (Rejected "INSERT command denied to user 'app' for table 'orders'") |}.

(** The pool a fresh process creates from [good_secret]. *)
Definition good_pool : Pool :=
  {| pool_host := VStr "db.internal";
     pool_user := VStr "app";
     pool_password := VStr "s3cret";
     pool_database := VStr "storedb";
     pool_port := 3306;
     waitForConnections := true;
     connectionLimit := 5;
     queueLimit := 0 |}.

Definition good_config : Index.DbConfig :=
  {| Index.host := VStr "db.internal";
     Index.user := VStr "app";
     Index.password := VStr "s3cret";
     Index.database := VStr "storedb";
     Index.port := 3306 |}.

(** The process after its first successful [getPool]. *)
Definition warm : Index.Process :=
  {| Index.pool := Some good_pool; Index.cachedConfig := Some good_config |}.

Definition cors_headers : list (string * string) :=
  [("Content-Type", "application/json");
   ("Access-Control-Allow-Origin", "*");
   ("Access-Control-Allow-Headers", "Content-Type");
   ("Access-Control-Allow-Methods", "GET,POST,OPTIONS")].

Definition reply (status : Z) (text : string) : envelope :=
  {| statusCode := status; headers := cors_headers; body := js text |}.

End Sample.

(* ================================================================= *)
(** ** The process between requests *)

(** The pool that [getPool] of src/index.js creates from a
    configuration. *)
Definition pool_of (cfg : Index.DbConfig) : Pool :=
  {| pool_host := Index.host cfg;
     pool_user := Index.user cfg;
     pool_password := Index.password cfg;
     pool_database := Index.database cfg;
     pool_port := Index.port cfg;
     waitForConnections := true;
     connectionLimit := 5;
     queueLimit := 0 |}.

(** A configuration with its three required fields. *)
Definition complete (cfg : Index.DbConfig) : Prop :=
  truthy (Index.host cfg) = true /\
  truthy (Index.user cfg) = true /\
  truthy (Index.password cfg) = true.

(** The state of a process of src/index.js is coherent when the cached
    configuration, if any, is complete, and the pool, if any, was
    created from the cached configuration. *)
Definition coherent (s : Index.Process) : Prop :=
  (forall cfg, Index.cachedConfig s = Some cfg -> complete cfg) /\
  (forall p, Index.pool s = Some p ->
             exists cfg, Index.cachedConfig s = Some cfg /\ p = pool_of cfg).

(** Two worlds with the same database behind them; their environment
    and their secret store may differ. *)
Definition same_database (W1 W2 : World) : Prop :=
  select_products W1 = select_products W2 /\
  (forall ids, select_prices W1 ids = select_prices W2 ids) /\
  (forall total, insert_order W1 total = insert_order W2 total).

(** Whether a value is a number. *)
Definition is_number (v : value) : bool :=
  match v with
  | VNum _ => true
  | _ => false
  end.

(** The headers of every response. *)
Definition cors : list (string * string) :=
  [("Content-Type", "application/json");
   ("Access-Control-Allow-Origin", "*");
   ("Access-Control-Allow-Headers", "Content-Type");
   ("Access-Control-Allow-Methods", "GET,POST,OPTIONS")].

Module Scenario.

(** The secret of [Sample.good_secret], delivered as [SecretBinary]. *)
Definition binary_secret : string :=
  "eyJob3N0IjoiZGIuaW50ZXJuYWwiLCJ1c2VybmFtZSI6ImFwcCIsInBhc3N3b3JkIjoiczNjcmV0In0=".

Definition shop_binary : World :=
  {| env := fun name => if String.eqb name "DB_SECRET_ARN" then Some "arn:secret" else None;
     getSecretValue := fun _ =>
       ok {| SecretString := None; SecretBinary := Some binary_secret |};
     select_products := ok [];
     select_prices := fun ids => ok (Sample.rows_in Sample.catalog_AB ids);
     insert_order := fun _ => ok {| insertId := VNum 1 |} |}.

(** The secret has been replaced by one that would be refused. *)
Definition shop_rotated : World :=
  Sample.world (Some "arn:secret") Sample.user_secret Sample.catalog_AB.

(** A catalog whose ids are numbers. *)
Definition catalog_numeric : list ProductRow :=
  [ {| id := VNum 1; price := VNum 10 |};
    {| id := VNum 2; price := VStr "2.50" |} ].

(** The database compares a text with a numeric id by value, so the
    lookup for the texts 1 and 2 returns both rows. *)
Definition shop_numeric : World :=
  {| env := fun name => if String.eqb name "DB_SECRET_ARN" then Some "arn:secret" else None;
     getSecretValue := fun _ =>
       ok {| SecretString := Some (Sample.js Sample.good_secret); SecretBinary := None |};
     select_products := ok [];
     select_prices := fun _ => ok catalog_numeric;
     insert_order := fun _ => ok {| insertId := VNum 1 |} |}.

(** The lookup returns two rows for product A; the later one says 7. *)
Definition shop_duplicate_rows : World :=
  {| env := fun name => if String.eqb name "DB_SECRET_ARN" then Some "arn:secret" else None;
     getSecretValue := fun _ =>
       ok {| SecretString := Some (Sample.js Sample.good_secret); SecretBinary := None |};
     select_products := ok [];
     select_prices := fun _ =>
       ok [ {| id := VStr "A"; price := VNum 5 |};
            {| id := VStr "B"; price := VNull |};
            {| id := VStr "A"; price := VNum 7 |} ];
     insert_order := fun _ => ok {| insertId := VNum 1 |} |}.

(** A listing of two products. *)
Definition listing : list value :=
  [ VObj [("id", VNum 1); ("name", VStr "Mug"); ("price", VStr "5.00");
          ("image_url", VNull)];
    VObj [("id", VNum 2); ("name", VStr "Cap"); ("price", VStr "12.90");
          ("image_url", VStr "https://cdn.example/cap.png")] ].

Definition shop_listing : World :=
  {| env := fun name =>
       if String.eqb name "DB_SECRET_ARN" then Some "arn:secret"
       else if String.eqb name "DB_NAME" then Some "shop"
       else None;
     getSecretValue := fun _ =>
       ok {| SecretString := Some (Sample.js Sample.good_secret); SecretBinary := None |};
     select_products := ok listing;
     select_prices := fun ids => ok (Sample.rows_in Sample.catalog_AB ids);
     insert_order := fun _ => ok {| insertId := VNum 1 |} |}.

(** The pool the packaged copy creates in [shop_listing]. *)
Definition copy_pool : Pool :=
  {| pool_host := VUndefined;
     pool_user := VUndefined;
     pool_password := VUndefined;
     pool_database := VStr "shop";
     pool_port := 3306;
     waitForConnections := true;
     connectionLimit := 5;
     queueLimit := 0 |}.

End Scenario.

(* ================================================================= *)
(** * Properties *)

Unset Implicit Arguments.

(** ** The monad and the pool *)

Section MonadFacts.
Context {rt : JSRuntime}.
Variable W : World.

Lemma getDbConfig_log s l :
  snd (Index.getDbConfig W s l) = l.
Proof.
  unfold Index.getDbConfig, bind, gets, lift, throw, ret, modify.
  destruct (Index.cachedConfig s); [reflexivity|].
  destruct (env W "DB_SECRET_ARN") as [[|c arn]|]; try reflexivity.
  destruct (getSecretValue W (String c arn)); [reflexivity|].
  destruct (JSON_parse _); [|reflexivity].
  repeat match goal with
         | |- context [match ?r with inl _ => _ | inr _ => _ end] => destruct r; cbn; try reflexivity
         | |- context [if ?b then _ else _] => destruct b; cbn; try reflexivity
         end.
Qed.

Lemma getPool_log s l :
  snd (Index.getPool W s l) = l.
Proof.
  unfold Index.getPool, bind, gets, modify, ret.
  destruct (Index.pool s); [reflexivity|].
  pose proof (getDbConfig_log s l) as H.
  destruct (Index.getDbConfig W s l) as [[[e|cfg] s'] l']; cbn in *; congruence.
Qed.

Lemma getPool_cases s l :
  (exists e s', Index.getPool W s l = (inl e, s', l)) \/
  (exists p s', Index.getPool W s l = (inr p, s', l)).
Proof.
  pose proof (getPool_log s l) as H.
  destruct (Index.getPool W s l) as [[[e|p] s'] l']; cbn in H; subst; eauto.
Qed.

End MonadFacts.

(** ** Every run follows a path *)

Section PathFacts.
Context {rt : JSRuntime}.
Variable W : World.

Local Open Scope m_scope.

(** What is left of [createOrder] once a cart has been accepted. *)
Lemma createOrder_on_cart event items s l :
  validate event = Cart items ->
  Index.createOrder W event s l =
  try_catch
    (_ <- Index.getPool W ;;
     ids <- lift (productIds items) ;;
     products <- query (SelectPrices ids) (select_prices W ids) ;;
     entries <- lift (price_entries products) ;;
     exit <- lift (Index.price_items (Map_new entries) items 0%float) ;;
     match exit with
     | Return r => ret r
     | Fallthrough total =>
         _ <- query (InsertOrder total) (insert_order W total) ;;
         ret (Index.response 201 (ORDER_OK total))
     end)
    (fun _ => ret (Index.response 500 DB_ERROR)) s l.
Proof.
  unfold validate, Index.createOrder, Index.createOrder_body.
  unfold try_catch, bind, lift.
  destruct (get event "body") as [e|body]; try discriminate.
  destruct (truthy body); cbn [negb]; try discriminate.
  destruct (JSON_parse_value body) as [e|payload]; try discriminate.
  destruct (get payload "items") as [e|[| | | | |[|first others]|]]; try discriminate.
  intros H. injection H as <-. reflexivity.
Qed.

Lemma createOrder_rejected event s l :
  Index.createOrder W event s l =
  match validate event with
  | EmptyBody => (inr (Index.response 400 (VObj [("error", VStr "EMPTY_BODY")])), s, l)
  | InvalidJson => (inr (Index.response 400 (VObj [("error", VStr "INVALID_JSON")])), s, l)
  | Unreadable => (inr (Index.response 500 DB_ERROR), s, l)
  | EmptyCart => (inr (Index.response 400 (VObj [("error", VStr "EMPTY_CART")])), s, l)
  | Cart _ => Index.createOrder W event s l
  end.
Proof.
  unfold validate, Index.createOrder, Index.createOrder_body.
  unfold try_catch, bind, lift.
  destruct (get event "body") as [e|body]; try reflexivity.
  destruct (truthy body); cbn [negb]; try reflexivity.
  destruct (JSON_parse_value body) as [e|payload]; try reflexivity.
  destruct (get payload "items") as [e|[| | | | |[|first others]|]]; reflexivity.
Qed.

(** A path determines the run. *)
Lemma path_sound event s l r s' l' :
  createOrder_path W event s l r s' l' ->
  Index.createOrder W event s l = (inr r, s', l').
Proof.
  intros Hp.
  destruct Hp;
    try (rewrite createOrder_rejected;
         match goal with H : validate _ = _ |- _ => rewrite H end; reflexivity);
    match goal with
    | H : validate _ = Cart _ |- _ => rewrite (createOrder_on_cart _ _ _ _ H); clear H
    end;
    unfold try_catch, bind, lift, query, ret, ok in *;
    repeat match goal with
           | H : _ = _ |- _ => rewrite H; clear H; cbv beta iota
           end;
    rewrite <- ?app_assoc; reflexivity.
Qed.

(** Every run follows a path. *)
Lemma path_complete event s l :
  exists r s' l',
    Index.createOrder W event s l = (inr r, s', l') /\
    createOrder_path W event s l r s' l'.
Proof.
  destruct (validate event) as [| | | |items] eqn:Hv;
    try (do 3 eexists; split;
         [rewrite createOrder_rejected, Hv; reflexivity | now constructor]).
  destruct (getPool_cases W s l) as [(e & s' & Hp)|(p & s' & Hp)].
  { do 3 eexists. split; [apply path_sound|]; eapply path_no_pool; eauto. }
  destruct (productIds items) as [e|ids] eqn:Hi.
  { do 3 eexists. split; [apply path_sound|]; eapply path_unreadable_item; eauto. }
  destruct (select_prices W ids) as [e|products] eqn:Hs.
  { do 3 eexists. split; [apply path_sound|]; eapply path_lookup_failed; eauto. }
  destruct (price_entries products) as [e|entries] eqn:He.
  { do 3 eexists. split; [apply path_sound|]; eapply path_unreadable_price; eauto. }
  destruct (Index.price_items (Map_new entries) items 0%float) as [e|[r|total]] eqn:Hl.
  { do 3 eexists. split; [apply path_sound|]; eapply path_loop_threw; eauto. }
  { do 3 eexists. split; [apply path_sound|]; eapply path_not_found; eauto. }
  destruct (insert_order W total) as [e|header] eqn:Hw.
  { do 3 eexists. split; [apply path_sound|]; eapply path_insert_failed; eauto. }
  do 3 eexists. split; [apply path_sound|]; eapply path_created; eauto.
Qed.

(** The path of a run is the one the run determines. *)
Lemma path_of_run event s l r s' l' :
  Index.createOrder W event s l = (inr r, s', l') ->
  createOrder_path W event s l r s' l'.
Proof.
  intros Hrun.
  destruct (path_complete event s l) as (r0 & s0 & l0 & Heq & Hp).
  rewrite Hrun in Heq. injection Heq as <- <- <-. exact Hp.
Qed.

End PathFacts.

(** ** The pricing loop *)

Section Loop.
Context {rt : JSRuntime}.

(** When every item resolves, the loop falls through with the running
    total extended by each line in turn. *)
Lemma price_items_resolved priceMap items lines :
  Forall2 (resolves priceMap) items lines ->
  forall total,
    Index.price_items priceMap items total =
    ok (Fallthrough (fold_left (fun t l => (t + fst l * snd l)%float) lines total)).
Proof.
  induction 1 as [|item [p q] items lines (pid & Hid & Hp & Hq) _ IH]; intros total.
  - reflexivity.
  - cbn [Index.price_items fold_left fst snd] in *.
    rewrite Hq. cbn [rbind ok]. rewrite Hid. cbn [rbind ok]. rewrite Hp.
    apply IH.
Qed.

(** The loop returns at the first item without a price and never
    looks at what follows it. *)
Lemma price_items_unpriced priceMap before lines item qty productId after :
  Forall2 (resolves priceMap) before lines ->
  Index.resolve_quantity item = ok qty ->
  unpriced priceMap item productId ->
  forall total,
    Index.price_items priceMap (before ++ item :: after) total =
    ok (Return (Index.response 400 (PRODUCT_NOT_FOUND productId))).
Proof.
  intros Hbefore Hq [Hid Hnone].
  induction Hbefore as [|x [p q] xs ls (pid & Hxid & Hp & Hxq) _ IH]; intros total.
  - cbn [app Index.price_items]. rewrite Hq. cbn [rbind ok].
    rewrite Hid. cbn [rbind ok]. rewrite Hnone. reflexivity.
  - cbn [app Index.price_items fst snd] in *.
    rewrite Hxq. cbn [rbind ok]. rewrite Hxid. cbn [rbind ok]. rewrite Hp.
    apply IH.
Qed.

(** Whatever the loop returns early is a 400 for a missing product. *)
Lemma price_items_returns priceMap items :
  forall total r,
    Index.price_items priceMap items total = ok (Return r) ->
    exists productId, r = Index.response 400 (PRODUCT_NOT_FOUND productId).
Proof.
  induction items as [|item rest IH]; intros total r; cbn [Index.price_items].
  - discriminate.
  - destruct (Index.resolve_quantity item) as [e|qty]; [discriminate|].
    cbn [rbind]. destruct (get item "productId") as [e|pid]; [discriminate|].
    cbn [rbind]. destruct (Map_get priceMap pid) as [p|].
    + apply IH.
    + intros H. injection H as <-. exists pid. reflexivity.
Qed.

(** Conversely, the loop falls through only if every item resolved. *)
Lemma price_items_fallthrough_inv priceMap items :
  forall total final,
    Index.price_items priceMap items total = ok (Fallthrough final) ->
    exists lines,
      Forall2 (resolves priceMap) items lines /\
      final = fold_left (fun t l => (t + fst l * snd l)%float) lines total.
Proof.
  induction items as [|item rest IH]; intros total final; cbn [Index.price_items].
  - intros H. injection H as <-. exists []. split; [constructor | reflexivity].
  - destruct (Index.resolve_quantity item) as [e|qty] eqn:Hq; [discriminate|].
    cbn [rbind]. destruct (get item "productId") as [e|pid] eqn:Hid; [discriminate|].
    cbn [rbind]. destruct (Map_get priceMap pid) as [p|] eqn:Hp; [|discriminate].
    intros H. destruct (IH _ _ H) as (lines & Hall & ->).
    exists ((p, qty) :: lines). split; [|reflexivity].
    constructor; [|exact Hall]. exists pid. auto.
Qed.

(** And it returns early only at a first item without a price, the
    items before it having resolved. *)
Lemma price_items_return_inv priceMap items :
  forall total r,
    Index.price_items priceMap items total = ok (Return r) ->
    exists before item after lines qty productId,
      items = (before ++ item :: after)%list /\
      Forall2 (resolves priceMap) before lines /\
      Index.resolve_quantity item = ok qty /\
      unpriced priceMap item productId /\
      r = Index.response 400 (PRODUCT_NOT_FOUND productId).
Proof.
  induction items as [|item rest IH]; intros total r; cbn [Index.price_items].
  - discriminate.
  - destruct (Index.resolve_quantity item) as [e|qty] eqn:Hq; [discriminate|].
    cbn [rbind]. destruct (get item "productId") as [e|pid] eqn:Hid; [discriminate|].
    cbn [rbind]. destruct (Map_get priceMap pid) as [p|] eqn:Hp.
    + intros H.
      destruct (IH _ _ H) as (before & x & after & lines & q & xid & -> & Hb & Hx & Hu & ->).
      exists (item :: before), x, after, ((p, qty) :: lines), q, xid.
      refine (conj eq_refl (conj _ (conj Hx (conj Hu eq_refl)))).
      constructor; [|exact Hb]. exists pid. auto.
    + intros H. injection H as <-.
      exists [], item, rest, [], qty, pid.
      refine (conj eq_refl (conj _ (conj Hq (conj (conj Hid Hp) eq_refl)))).
      constructor.
Qed.

Lemma productIds_spec items ids :
  productIds items = ok ids ->
  forall v, In v ids <-> exists item, In item items /\ get item "productId" = ok v.
Proof.
  revert ids. unfold productIds.
  induction items as [|item rest IH]; intros ids; cbn [mapR].
  - intros H. injection H as <-. intros v. split; [intros []|intros (x & [] & _)].
  - destruct (get item "productId") as [e|pid] eqn:Hi; [discriminate|].
    cbn [rbind]. destruct (mapR _ rest) as [e|tail] eqn:Hr; [discriminate|].
    cbn [rbind]. intros H. injection H as <-. intros v. cbn [In]. split.
    + intros [<-|Hin].
      * exists item. auto.
      * apply (IH tail eq_refl) in Hin. destruct Hin as (x & Hx & Hg). eauto.
    + intros (x & [<-|Hx] & Hg).
      * left. unfold ok in *. congruence.
      * right. apply (IH tail eq_refl). eauto.
Qed.

(** The ids are the [productId] of the items, one per item and in the
    order of the items. *)
Lemma productIds_in_order items ids :
  productIds items = ok ids <->
  Forall2 (fun item v => get item "productId" = ok v) items ids.
Proof.
  unfold productIds. revert ids.
  induction items as [|item rest IH]; intros ids; cbn [mapR]; split.
  - intros H. injection H as <-. constructor.
  - intros H. inversion H. reflexivity.
  - destruct (get item "productId") as [e|pid] eqn:Hi; [discriminate|].
    cbn [rbind]. destruct (mapR _ rest) as [e|tail] eqn:Hr; [discriminate|].
    cbn [rbind]. intros H. injection H as <-.
    constructor; [exact Hi|]. apply IH. reflexivity.
  - intros H. inversion H as [|x v xs tail Hv Ht]; subst.
    rewrite Hv. cbn [rbind ok]. apply IH in Ht. rewrite Ht. reflexivity.
Qed.

(** A [productId] that two items of the cart share is sent twice. *)
Lemma shared_productId_is_sent_twice items ids before a mid b after v :
  Forall2 (fun item v => get item "productId" = ok v) items ids ->
  items = (before ++ a :: mid ++ b :: after)%list ->
  get a "productId" = ok v -> get b "productId" = ok v ->
  ~ NoDup ids.
Proof.
  intros Hall -> Ha Hb Hnodup.
  apply Forall2_app_inv_l in Hall as (ids1 & tail1 & _ & Htail1 & ->).
  inversion Htail1 as [|x va xs tail2 Hva Htail2]; subst.
  apply Forall2_app_inv_l in Htail2 as (ids2 & tail3 & _ & Htail3 & ->).
  inversion Htail3 as [|x vb xs ids3 Hvb _]; subst.
  assert (va = v) by (unfold ok in *; congruence).
  assert (vb = v) by (unfold ok in *; congruence).
  subst. apply NoDup_remove_2 in Hnodup. apply Hnodup.
  rewrite !in_app_iff. right. right. left. reflexivity.
Qed.

(** Reading the ids succeeds as soon as every item resolves or is
    merely unpriced. *)
Lemma productIds_readable items :
  Forall (fun item => exists v, get item "productId" = ok v) items ->
  exists ids, productIds items = ok ids /\ List.length ids = List.length items.
Proof.
  unfold productIds.
  induction 1 as [|item rest (v & Hv) _ (ids & IH & Hlen)]; cbn [mapR].
  - exists []. auto.
  - rewrite Hv, IH. cbn [rbind]. exists (v :: ids). cbn. auto.
Qed.

End Loop.

(** ** Order total *)

Lemma validate_cart_nonempty {rt : JSRuntime} event items :
  validate event = Cart items -> items <> [].
Proof.
  unfold validate.
  destruct (get event "body") as [e|body]; try discriminate.
  destruct (truthy body); cbn [negb]; try discriminate.
  destruct (JSON_parse_value body) as [e|payload]; try discriminate.
  destruct (get payload "items") as [e|[| | | | |[|first others]|]]; try discriminate.
  intros H. injection H as <-. discriminate.
Qed.

(** The total of an order.  For a request that carries a cart
    (necessarily non-empty), when the pool is available, the catalog
    lookup answers, every item of the cart resolves to a price and a
    quantity and the order store accepts the write, [createOrder]
    answers 201 and the total it returns is the sum of price times
    quantity over the items, accumulated from zero in input order, one
    line per item whether or not a [productId] occurs several times. *)
Theorem createOrder_total_is_sum_of_lines
    {rt : JSRuntime} (W : World) event s l items pool s' ids products entries lines header :
  validate event = Cart items ->
  Index.getPool W s l = (inr pool, s', l) ->
  productIds items = ok ids ->
  select_prices W ids = ok products ->
  price_entries products = ok entries ->
  Forall2 (resolves (Map_new entries)) items lines ->
  insert_order W (sum_lines lines) = ok header ->
  items <> [] /\
  Index.createOrder W event s l =
  (inr (Index.response 201 (ORDER_OK (sum_lines lines))), s',
   (l ++ [SelectPrices ids; InsertOrder (sum_lines lines)])%list).
Proof.
  intros Hv Hp Hi Hs He Hl Hw. split.
  - exact (validate_cart_nonempty _ _ Hv).
  - apply path_sound.
    eapply path_created; eauto.
    apply price_items_resolved. exact Hl.
Qed.

Lemma createOrder_total_is_sum_of_lines_witness :
  Index.createOrder (rt := Reference.runtime) Sample.shop_AB
    (Sample.request
       "{'items':[{'productId':'A','quantity':2},{'productId':'B'},{'productId':'A'}]}")
    Sample.fresh [] =
  (inr (Sample.reply 201 "{'status':'ok','total':18}"), Sample.warm,
   [SelectPrices [VStr "A"; VStr "B"; VStr "A"]; InsertOrder 18]).
Proof.
  refine (proj2 (createOrder_total_is_sum_of_lines (rt := Reference.runtime)
            Sample.shop_AB _ Sample.fresh [] _ Sample.good_pool Sample.warm
            [VStr "A"; VStr "B"; VStr "A"] Sample.catalog_AB
            [(VStr "A", 5%float); (VStr "B", 3%float)]
            [(5%float, 2%float); (3%float, 1%float); (5%float, 1%float)]
            {| insertId := VNum 1 |} _ _ _ _ _ _ _)).
  - vm_compute. reflexivity.
  - vm_compute. reflexivity.
  - vm_compute. reflexivity.
  - vm_compute. reflexivity.
  - vm_compute. reflexivity.
  - repeat constructor.
    + exists (VStr "A"). vm_compute. auto.
    + exists (VStr "B"). vm_compute. auto.
    + exists (VStr "A"). vm_compute. auto.
  - vm_compute. reflexivity.
Defined.

(** The conditions of the theorem are also necessary: a 201 is only
    returned on that path, with that total. *)
Lemma createOrder_created_only_if
    {rt : JSRuntime} (W : World) event s l r s' l' :
  Index.createOrder W event s l = (inr r, s', l') ->
  statusCode r = 201%Z ->
  exists items pool ids products entries lines header,
    validate event = Cart items /\
    Index.getPool W s l = (inr pool, s', l) /\
    productIds items = ok ids /\
    select_prices W ids = ok products /\
    price_entries products = ok entries /\
    Forall2 (resolves (Map_new entries)) items lines /\
    insert_order W (sum_lines lines) = ok header /\
    r = Index.response 201 (ORDER_OK (sum_lines lines)).
Proof.
  intros Hrun Hstatus. apply path_of_run in Hrun.
  destruct Hrun; cbn in Hstatus; try discriminate Hstatus.
  - match goal with
    | H : Index.price_items _ _ _ = ok (Return _) |- _ =>
        destruct (price_items_returns _ _ _ _ H) as (pid & ->)
    end.
    discriminate Hstatus.
  - match goal with
    | H : Index.price_items _ _ _ = ok (Fallthrough _) |- _ =>
        destruct (price_items_fallthrough_inv _ _ _ _ H) as (lines & Hlines & ->)
    end.
    exists items, p, ids, products, entries, lines, header.
    repeat split; assumption.
Qed.

(** C1.  A cart in which every [productId] has a catalog price is
    still refused when a quantity cannot be converted.  The catalog
    prices product A; the cart whose only item is A with the quantity
    [{toString: 1}] is answered 500 DB_ERROR after the lookup, and no
    order is written: [Number] throws on that object and the handler
    reports the exception as a database error.  The same cart with the
    quantity [[2]], no number either, is converted and answered 201
    with the total 10, as the claim says. *)
Theorem createOrder_unconvertible_quantity_is_db_error :
  select_prices Sample.shop_AB [VStr "A"] =
  ok [ {| id := VStr "A"; price := VStr "5.00" |} ] /\
  Index.createOrder (rt := Reference.runtime) Sample.shop_AB
    (Sample.request "{'items':[{'productId':'A','quantity':{'toString':1}}]}")
    Sample.fresh [] =
  (inr (Sample.reply 500 "{'error':'DB_ERROR'}"), Sample.warm,
   [SelectPrices [VStr "A"]]) /\
  Index.createOrder (rt := Reference.runtime) Sample.shop_AB
    (Sample.request "{'items':[{'productId':'A','quantity':[2]}]}")
    Sample.fresh [] =
  (inr (Sample.reply 201 "{'status':'ok','total':10}"), Sample.warm,
   [SelectPrices [VStr "A"]; InsertOrder 10]).
Proof.
  repeat split; vm_compute; reflexivity.
Qed.

(** ** Validation, in order *)

Section Validation.
Context {rt : JSRuntime}.
Variable W : World.

(** A request without a body, or with a falsy one (missing, [null],
    the empty string), is rejected first, whatever the runtime would
    make of it. *)
Lemma createOrder_empty_body event body s l :
  get event "body" = ok body -> truthy body = false ->
  Index.createOrder W event s l =
  (inr (Index.response 400 (VObj [("error", VStr "EMPTY_BODY")])), s, l).
Proof.
  intros Hb Hfalsy. rewrite createOrder_rejected. unfold validate.
  rewrite Hb. unfold ok. now rewrite Hfalsy.
Qed.

(** Validation of a request whose body is a non-empty text. *)
Lemma validate_text event text :
  get event "body" = ok (VStr text) -> text <> "" ->
  validate event =
  match JSON_parse text with
  | None => InvalidJson
  | Some payload =>
      match get payload "items" with
      | inl _ => Unreadable
      | inr (VArr (first :: others)) => Cart (first :: others)
      | inr _ => EmptyCart
      end
  end.
Proof.
  intros Hb Hne. unfold validate. rewrite Hb.
  destruct text as [|c text]; [congruence|].
  unfold JSON_parse_value. cbn.
  destruct (JSON_parse (String c text)); reflexivity.
Qed.

(** A non-empty body that is not JSON is rejected next. *)
Lemma createOrder_invalid_json event text s l :
  get event "body" = ok (VStr text) -> text <> "" -> JSON_parse text = None ->
  Index.createOrder W event s l =
  (inr (Index.response 400 (VObj [("error", VStr "INVALID_JSON")])), s, l).
Proof.
  intros Hb Hne Hp.
  rewrite createOrder_rejected, (validate_text _ _ Hb Hne), Hp. reflexivity.
Qed.

(** A payload other than [null] whose [items] is not a non-empty array
    is rejected third. *)
Lemma createOrder_empty_cart event text payload s l :
  get event "body" = ok (VStr text) -> text <> "" -> JSON_parse text = Some payload ->
  payload <> VNull -> payload <> VUndefined ->
  (forall first others, get payload "items" <> ok (VArr (first :: others))) ->
  Index.createOrder W event s l =
  (inr (Index.response 400 (VObj [("error", VStr "EMPTY_CART")])), s, l).
Proof.
  intros Hb Hne Hp Hnull Hundef Hitems.
  rewrite createOrder_rejected, (validate_text _ _ Hb Hne), Hp.
  destruct (get payload "items") as [e|v] eqn:Hg.
  - destruct payload; cbn in Hg; try discriminate; try congruence.
    destruct (own props "items"); discriminate.
  - destruct v as [| | | | |[|first others]|]; try reflexivity.
    exfalso. exact (Hitems first others eq_refl).
Qed.

(** The payload [null] passes the first two checks and is then answered
    with a 500: reading [items] from it throws. *)
Lemma createOrder_null_payload event text s l :
  get event "body" = ok (VStr text) -> text <> "" -> JSON_parse text = Some VNull ->
  Index.createOrder W event s l = (inr (Index.response 500 DB_ERROR), s, l).
Proof.
  intros Hb Hne Hp.
  rewrite createOrder_rejected, (validate_text _ _ Hb Hne), Hp. reflexivity.
Qed.

End Validation.

(** C2.  The body [null] is not empty and is valid JSON, and its
    [items] is not a non-empty array; [createOrder] answers it with
    500 DB_ERROR instead of 400 EMPTY_CART, in every world and every
    state of the process, without any collaborator call. *)
Theorem createOrder_null_body_is_db_error (W : World) s l :
  Reference.parse "null" = Some VNull /\
  Index.createOrder (rt := Reference.runtime) W (Sample.request "null") s l =
  (inr (Sample.reply 500 "{'error':'DB_ERROR'}"), s, l).
Proof.
  split; [reflexivity|].
  rewrite (createOrder_null_payload (rt := Reference.runtime) W _ "null");
    try reflexivity.
  discriminate.
Qed.

(** ** The first item without a price *)

(** C3.  A cart whose first item has no catalog price is not always
    answered PRODUCT_NOT_FOUND: an item after it still decides the
    answer, and so does the quantity of the item itself.  Here the
    catalog has no product x.  The cart with x alone is answered
    400 PRODUCT_NOT_FOUND x, and so is x followed by the item [5],
    which is no object.  But x followed by [null] is answered
    500 DB_ERROR before any lookup, the [productId] of every item being
    read first and that read throwing on [null]; and x with the quantity
    [{toString: 1}] is answered 500 DB_ERROR, the quantity being
    converted before the price is looked up. *)
Lemma createOrder_item_after_unpriced_matters :
  select_prices Sample.shop_AB [VStr "x"] = ok [] /\
  Index.createOrder (rt := Reference.runtime) Sample.shop_AB
    (Sample.request "{'items':[{'productId':'x'}]}") Sample.fresh [] =
  (inr (Sample.reply 400 "{'error':'PRODUCT_NOT_FOUND','productId':'x'}"),
   Sample.warm, [SelectPrices [VStr "x"]]) /\
  Index.createOrder (rt := Reference.runtime) Sample.shop_AB
    (Sample.request "{'items':[{'productId':'x'},5]}") Sample.fresh [] =
  (inr (Sample.reply 400 "{'error':'PRODUCT_NOT_FOUND','productId':'x'}"),
   Sample.warm, [SelectPrices [VStr "x"; VUndefined]]) /\
  Index.createOrder (rt := Reference.runtime) Sample.shop_AB
    (Sample.request "{'items':[{'productId':'x'},null]}") Sample.fresh [] =
  (inr (Sample.reply 500 "{'error':'DB_ERROR'}"), Sample.warm, []) /\
  Index.createOrder (rt := Reference.runtime) Sample.shop_AB
    (Sample.request "{'items':[{'productId':'x','quantity':{'toString':1}}]}")
    Sample.fresh [] =
  (inr (Sample.reply 500 "{'error':'DB_ERROR'}"), Sample.warm,
   [SelectPrices [VStr "x"]]).
Proof.
  repeat split; vm_compute; reflexivity.
Qed.

(** Away from those two exceptions the first item without a price
    decides the answer.  When every item of the cart has a readable
    [productId], the pool is available and the catalog lookup answers,
    and the items before the first one without a price resolve, and the
    quantity of that one resolves too, [createOrder] answers
    400 PRODUCT_NOT_FOUND with the [productId] of that item and issues
    no write; the loop stops there: the items after it are not examined
    by the loop (their [productId] was read before, for the lookup). *)
Theorem createOrder_stops_at_first_unpriced
    {rt : JSRuntime} (W : World) event s l before item after
    pool s' ids products entries lines qty productId :
  validate event = Cart (before ++ item :: after) ->
  Index.getPool W s l = (inr pool, s', l) ->
  productIds (before ++ item :: after) = ok ids ->
  select_prices W ids = ok products ->
  price_entries products = ok entries ->
  Forall2 (resolves (Map_new entries)) before lines ->
  Index.resolve_quantity item = ok qty ->
  unpriced (Map_new entries) item productId ->
  Index.createOrder W event s l =
  (inr (Index.response 400 (PRODUCT_NOT_FOUND productId)), s',
   (l ++ [SelectPrices ids])%list) /\
  (forall total,
     Index.price_items (Map_new entries) (before ++ item :: after) total =
     Index.price_items (Map_new entries) (before ++ [item]) total).
Proof.
  intros Hv Hp Hi Hs He Hb Hq Hu.
  split.
  - apply path_sound. eapply path_not_found; eauto.
    eapply price_items_unpriced; eauto.
  - intros total.
    rewrite (price_items_unpriced _ _ _ _ _ _ after Hb Hq Hu).
    rewrite (price_items_unpriced _ _ _ _ _ _ [] Hb Hq Hu).
    reflexivity.
Qed.

Lemma createOrder_stops_at_first_unpriced_witness :
  Index.createOrder (rt := Reference.runtime) Sample.shop_AB
    (Sample.request
       "{'items':[{'productId':'A'},{'productId':'x'},{'productId':'y','quantity':{'toString':1}}]}")
    Sample.fresh [] =
  (inr (Sample.reply 400 "{'error':'PRODUCT_NOT_FOUND','productId':'x'}"),
   Sample.warm, [SelectPrices [VStr "A"; VStr "x"; VStr "y"]]).
Proof.
  refine (proj1 (createOrder_stops_at_first_unpriced (rt := Reference.runtime)
            Sample.shop_AB _ Sample.fresh []
            [VObj [("productId", VStr "A")]]
            (VObj [("productId", VStr "x")])
            [VObj [("productId", VStr "y");
                   ("quantity", VObj [("toString", VNum 1)])]]
            Sample.good_pool Sample.warm
            [VStr "A"; VStr "x"; VStr "y"]
            [ {| id := VStr "A"; price := VStr "5.00" |} ]
            [(VStr "A", 5%float)]
            [(5%float, 1%float)] 1%float (VStr "x") _ _ _ _ _ _ _ _)).
  - vm_compute. reflexivity.
  - vm_compute. reflexivity.
  - vm_compute. reflexivity.
  - vm_compute. reflexivity.
  - vm_compute. reflexivity.
  - repeat constructor. exists (VStr "A"). vm_compute. auto.
  - vm_compute. reflexivity.
  - split; vm_compute; reflexivity.
Defined.

(** Conversely, a PRODUCT_NOT_FOUND answer always names the first item
    without a price. *)
Lemma createOrder_not_found_only_if
    {rt : JSRuntime} (W : World) event s l r s' l' :
  Index.createOrder W event s l = (inr r, s', l') ->
  statusCode r = 400%Z ->
  (exists items, validate event = Cart items) ->
  exists before item after lines qty productId entries,
    validate event = Cart (before ++ item :: after) /\
    Forall2 (resolves (Map_new entries)) before lines /\
    Index.resolve_quantity item = ok qty /\
    unpriced (Map_new entries) item productId /\
    r = Index.response 400 (PRODUCT_NOT_FOUND productId).
Proof.
  intros Hrun Hstatus (items0 & Hcart). apply path_of_run in Hrun.
  destruct Hrun; cbn in Hstatus; try discriminate Hstatus; try congruence.
  match goal with
  | H : Index.price_items _ _ _ = ok (Return _) |- _ =>
      destruct (price_items_return_inv _ _ _ _ H)
        as (before & item & after & lines & qty & pid & -> & Hb & Hq & Hu & ->)
  end.
  exists before, item, after, lines, qty, pid, entries. auto.
Qed.

(** ** Quantities *)

Lemma absent_or_falsy_truthy field :
  absent_or_falsy (Some field) = negb (truthy field).
Proof.
  destruct field as [| |b|n|[|c s]| |]; cbn; try reflexivity.
  now rewrite negb_involutive.
Qed.

(** C4.  The quantity of an item is 1 when its [quantity] field is
    absent or falsy, and the numeric coercion of the field otherwise;
    a number other than zero and NaN is taken as it is, whatever its
    sign and whether or not it is an integer.  The one-item cart
    [{productId: A}], with A priced 10, totals 10. *)
Theorem resolve_quantity_default_or_coercion {rt : JSRuntime} :
  (forall props,
     own props "quantity" = None ->
     Index.resolve_quantity (VObj props) = ok 1%float) /\
  (forall item field,
     get item "quantity" = ok field ->
     absent_or_falsy (Some field) = true ->
     Index.resolve_quantity item = ok 1%float) /\
  (forall item field,
     get item "quantity" = ok field ->
     absent_or_falsy (Some field) = false ->
     Index.resolve_quantity item = ToNumber field) /\
  (forall item n,
     get item "quantity" = ok (VNum n) ->
     is_zero n || is_nan n = false ->
     Index.resolve_quantity item = ok n) /\
  Index.createOrder (rt := Reference.runtime) Sample.shop_A10
    (Sample.request "{'items':[{'productId':'A'}]}") Sample.fresh [] =
  (inr (Sample.reply 201 "{'status':'ok','total':10}"), Sample.warm,
   [SelectPrices [VStr "A"]; InsertOrder 10]).
Proof.
  repeat split.
  - intros props Habsent. unfold Index.resolve_quantity, get. now rewrite Habsent.
  - intros item field Hget Hfalsy. unfold Index.resolve_quantity.
    rewrite Hget. cbn [rbind ok].
    rewrite absent_or_falsy_truthy in Hfalsy.
    destruct (truthy field); [discriminate|reflexivity].
  - intros item field Hget Htruthy. unfold Index.resolve_quantity.
    rewrite Hget. cbn [rbind ok].
    rewrite absent_or_falsy_truthy in Htruthy.
    destruct (truthy field); [reflexivity|discriminate].
  - intros item n Hget Hn. unfold Index.resolve_quantity.
    rewrite Hget. cbn [rbind ok truthy]. now rewrite Hn.
Qed.

Lemma resolve_quantity_default_or_coercion_witness :
  Index.resolve_quantity (rt := Reference.runtime)
    (VObj [("productId", VStr "A")]) = ok 1%float /\
  Index.resolve_quantity (rt := Reference.runtime)
    (VObj [("productId", VStr "A"); ("quantity", VNum 0)]) = ok 1%float /\
  Index.resolve_quantity (rt := Reference.runtime)
    (VObj [("productId", VStr "A"); ("quantity", VStr "3")]) = ok 3%float /\
  Index.resolve_quantity (rt := Reference.runtime)
    (VObj [("productId", VStr "A"); ("quantity", VNum (-2.5))]) = ok (-2.5)%float.
Proof.
  pose proof (resolve_quantity_default_or_coercion (rt := Reference.runtime))
    as (Habsent & Hfalsy & Hcoerce & Hnumber & _).
  split; [|split; [|split]].
  - apply Habsent. reflexivity.
  - apply (Hfalsy _ (VNum 0)); reflexivity.
  - apply (Hcoerce _ (VStr "3")); reflexivity.
  - apply (Hnumber _ (-2.5)%float); reflexivity.
Defined.

(** ** Collaborator calls *)

Section Effects.
Context {rt : JSRuntime}.
Variable W : World.

Lemma statusCode_response n v : statusCode (Index.response n v) = n.
Proof. reflexivity. Qed.

(** The three ways through [getProducts]. *)
Lemma getProducts_cases s l :
  (exists e s', Index.getPool W s l = (inl e, s', l) /\
     Index.getProducts W s l = (inr (Index.response 500 DB_ERROR), s', l)) \/
  (exists p s' e, Index.getPool W s l = (inr p, s', l) /\
     select_products W = inl e /\
     Index.getProducts W s l =
     (inr (Index.response 500 DB_ERROR), s', (l ++ [SelectProducts])%list)) \/
  (exists p s' rows, Index.getPool W s l = (inr p, s', l) /\
     select_products W = ok rows /\
     Index.getProducts W s l =
     (inr (Index.response 200 (VArr rows)), s', (l ++ [SelectProducts])%list)).
Proof.
  unfold Index.getProducts, try_catch, bind, query, ret.
  destruct (getPool_cases W s l) as [(e & s' & Hp)|(p & s' & Hp)]; rewrite Hp.
  - left. eauto.
  - right. destruct (select_products W) as [e|rows] eqn:Hs.
    + left. exists p, s', e. auto.
    + right. exists p, s', rows. auto.
Qed.

End Effects.

(** Case analysis on the path of a run: one goal per path, with the run
    equation [Hrun] and the facts of the path in the context. *)
Ltac by_path W event s l :=
  let r := fresh "r" in
  let s' := fresh "s'" in
  let l' := fresh "l'" in
  let Hrun := fresh "Hrun" in
  let Hp := fresh "Hp" in
  destruct (path_complete W event s l) as (r & s' & l' & Hrun & Hp);
  destruct Hp;
  try match goal with
      | H : Index.price_items _ _ _ = ok (Return _) |- _ =>
          let pid := fresh "pid" in
          destruct (price_items_returns _ _ _ _ H) as (pid & ->)
      end.

(** Answers [exists r s' calls, run = (inr r, s', l ++ calls) /\ _]
    with the calls of the path at hand. *)
Ltac answer calls :=
  do 2 eexists; exists calls; split; [rewrite ?app_nil_r; eassumption|].

(** Splits a membership in an explicit list of calls into its cases and
    discards those that name a different statement. *)
Ltac which_call Hin :=
  cbn in Hin;
  repeat match goal with
         | H : _ \/ _ |- _ => destruct H
         | H : False |- _ => contradiction
         end;
  try match goal with
      | H : @eq call _ _ |- _ => discriminate H
      end;
  try match goal with
      | H : SelectPrices _ = SelectPrices _ |- _ => injection H as <-
      | H : InsertOrder _ = InsertOrder _ |- _ => injection H as <-
      end.

(** C5.  In every invocation of [createOrder], at most one catalog
    lookup is issued, and none unless validation steps 1 to 3 have
    passed; a 201 comes with exactly one order-store write, whose
    amount is the total of the response; a 400 (PRODUCT_NOT_FOUND
    included) comes with no write. *)
Theorem createOrder_side_effects {rt : JSRuntime} (W : World) event s l :
  exists r s' calls,
    Index.createOrder W event s l = (inr r, s', (l ++ calls)%list) /\
    (List.length (lookups calls) <= 1)%nat /\
    match validate event with
    | Cart _ => True
    | _ => calls = []
    end /\
    (statusCode r = 201%Z ->
     exists total, r = Index.response 201 (ORDER_OK total) /\ writes calls = [total]) /\
    (statusCode r = 400%Z -> writes calls = []).
Proof.
  by_path W event s l;
    match goal with
    | H : validate event = _ |- _ => rewrite H
    end;
    match goal with
    | Hrun : _ = (_, _, l) |- _ => answer (@nil call)
    | Hrun : _ = (_, _, (l ++ ?calls)%list) |- _ => answer calls
    end;
    cbn; repeat split; auto; intros; try discriminate; eauto.
Qed.

(** C6, as stated, fails: the ids sent to the catalog lookup are not
    deduplicated.  For the cart A, B, A the lookup receives A, B, A,
    with A twice. *)
Lemma createOrder_lookup_keeps_duplicates :
  Index.createOrder (rt := Reference.runtime) Sample.shop_AB
    (Sample.request
       "{'items':[{'productId':'A','quantity':2},{'productId':'B'},{'productId':'A'}]}")
    Sample.fresh [] =
  (inr (Sample.reply 201 "{'status':'ok','total':18}"), Sample.warm,
   [SelectPrices [VStr "A"; VStr "B"; VStr "A"]; InsertOrder 18]) /\
  lookups [SelectPrices [VStr "A"; VStr "B"; VStr "A"]; InsertOrder 18] =
  [[VStr "A"; VStr "B"; VStr "A"]] /\
  ~ NoDup [VStr "A"; VStr "B"; VStr "A"].
Proof.
  split; [vm_compute; reflexivity|]. split; [reflexivity|].
  intros H. inversion H as [|x xs Hnotin _]; subst.
  apply Hnotin. right. left. reflexivity.
Qed.

(** C6, amended.  Once validation steps 1 to 3 have passed, what
    [createOrder] sends to the catalog lookup is the list of the
    [productId] of every item of the cart, one id per item and in the
    order of the items, so a [productId] that two items share is sent
    twice; read as a set, the ids sent are the [productId] values of
    the items.  The lookup is issued, once, as soon as the pool is
    available and every item has a readable [productId]. *)
Theorem createOrder_lookup_ids {rt : JSRuntime} (W : World) event s l :
  exists r s' calls,
    Index.createOrder W event s l = (inr r, s', (l ++ calls)%list) /\
    (forall ids,
       In (SelectPrices ids) calls ->
       exists items,
         validate event = Cart items /\
         Forall2 (fun item v => get item "productId" = ok v) items ids /\
         (forall before a mid b after v,
            items = (before ++ a :: mid ++ b :: after)%list ->
            get a "productId" = ok v -> get b "productId" = ok v ->
            ~ NoDup ids) /\
         forall v, In v ids <->
                   exists item, In item items /\ get item "productId" = ok v) /\
    (forall items pool s1 ids,
       validate event = Cart items ->
       Index.getPool W s l = (inr pool, s1, l) ->
       Forall2 (fun item v => get item "productId" = ok v) items ids ->
       lookups calls = [ids]).
Proof.
  by_path W event s l;
    match goal with
    | Hrun : _ = (_, _, l) |- _ => answer (@nil call)
    | Hrun : _ = (_, _, (l ++ ?calls)%list) |- _ => answer calls
    end;
    (split;
     [ intros ids0 Hin; which_call Hin;
       (match goal with
        | H : productIds _ = ok _ |- _ =>
            pose proof (proj1 (productIds_in_order _ _) H) as Hall
        end;
        eapply ex_intro; refine (conj _ (conj Hall (conj _ _)));
        [ eassumption
        | intros before a mid b after v0 Hsplit Ha Hb;
          exact (shared_productId_is_sent_twice _ _ _ _ _ _ _ _ Hall Hsplit Ha Hb)
        | now apply productIds_spec ])
     | intros items0 pool0 s0 ids0 Hv0 Hp0 Hi0;
       apply productIds_in_order in Hi0;
       try congruence;
       repeat match goal with
              | H : validate event = Cart _ |- _ =>
                  rewrite H in Hv0; injection Hv0 as <-
              | H : productIds _ = _ |- _ =>
                  rewrite H in Hi0; try discriminate Hi0; injection Hi0 as <-
              end;
       try reflexivity ]).
Qed.

(** C7.  When the catalog lookup or the order-store write that
    [createOrder] issued is rejected, or the product listing that
    [getProducts] issued is rejected, or the pool cannot be obtained,
    the handler answers 500 with the body [{error: DB_ERROR}], the
    same whatever the rejection carries. *)
Theorem collaborator_failure_is_opaque {rt : JSRuntime} (W : World) :
  (forall event s l,
     exists r s' calls,
       Index.createOrder W event s l = (inr r, s', (l ++ calls)%list) /\
       (forall ids e,
          In (SelectPrices ids) calls -> select_prices W ids = inl e ->
          r = Index.response 500 DB_ERROR) /\
       (forall total e,
          In (InsertOrder total) calls -> insert_order W total = inl e ->
          r = Index.response 500 DB_ERROR) /\
       (forall items e s1,
          validate event = Cart items -> Index.getPool W s l = (inl e, s1, l) ->
          r = Index.response 500 DB_ERROR)) /\
  (forall s l,
     exists r s' calls,
       Index.getProducts W s l = (inr r, s', (l ++ calls)%list) /\
       (forall e,
          In SelectProducts calls -> select_products W = inl e ->
          r = Index.response 500 DB_ERROR) /\
       (forall e s1,
          Index.getPool W s l = (inl e, s1, l) ->
          r = Index.response 500 DB_ERROR)) /\
  body (Index.response 500 DB_ERROR) = JSON_stringify (VObj [("error", VStr "DB_ERROR")]).
Proof.
  split; [|split; [|reflexivity]].
  - intros event s l.
    by_path W event s l;
      match goal with
      | Hrun : _ = (_, _, l) |- _ => answer (@nil call)
      | Hrun : _ = (_, _, (l ++ ?calls)%list) |- _ => answer calls
      end;
      (refine (conj _ (conj _ _));
       [ intros ids0 e0 Hin Hfail; which_call Hin;
         try reflexivity; unfold ok in *; congruence
       | intros total0 e0 Hin Hfail; which_call Hin;
         try reflexivity; unfold ok in *; congruence
       | intros items0 e0 s0 Hv0 Hp0; try reflexivity; congruence ]).
  - intros s l.
    destruct (getProducts_cases W s l)
      as [(e & s' & Hp & Hrun)|[(p & s' & e & Hp & Hs & Hrun)|(p & s' & rows & Hp & Hs & Hrun)]].
    + answer (@nil call). split; reflexivity.
    + answer [SelectProducts]. split; reflexivity.
    + answer [SelectProducts]. split.
      * intros e _ Hfail. unfold ok in *. congruence.
      * intros e s1 Hfail. congruence.
Qed.

(** C10.  [createOrder] and [getProducts] always return a response:
    its status is 201, 400 or 500 for [createOrder] and 200 or 500 for
    [getProducts], its body is the serialization of an object or an
    array, and an exception raised anywhere in the body of
    [createOrder] becomes the 500 response. *)
Theorem handlers_always_answer {rt : JSRuntime} (W : World) :
  (forall event s l,
     exists r s' l',
       Index.createOrder W event s l = (inr r, s', l') /\
       (statusCode r = 201 \/ statusCode r = 400 \/ statusCode r = 500)%Z /\
       exists v, is_object v /\ body r = JSON_stringify v) /\
  (forall s l,
     exists r s' l',
       Index.getProducts W s l = (inr r, s', l') /\
       (statusCode r = 200 \/ statusCode r = 500)%Z /\
       exists v, is_object v /\ body r = JSON_stringify v) /\
  (forall event s l e s' l',
     Index.createOrder_body W event s l = (inl e, s', l') ->
     Index.createOrder W event s l = (inr (Index.response 500 DB_ERROR), s', l')).
Proof.
  split; [|split].
  - intros event s l.
    by_path W event s l; do 3 eexists; (split; [eassumption|]);
      cbn; (split; [auto|]); eexists; (split; [|reflexivity]); exact I.
  - intros s l.
    destruct (getProducts_cases W s l)
      as [(e & s' & Hp & Hrun)|[(p & s' & e & Hp & Hs & Hrun)|(p & s' & rows & Hp & Hs & Hrun)]];
      do 3 eexists; (split; [eassumption|]);
      cbn; (split; [auto|]); eexists; (split; [|reflexivity]); exact I.
  - intros event s l e s' l' Hthrow.
    unfold Index.createOrder, try_catch. rewrite Hthrow. reflexivity.
Qed.

(** ** Configuration *)

Section Configuration.
Context {rt : JSRuntime}.
Variable W : World.

Lemma get_field parsed k :
  parsed <> VNull -> parsed <> VUndefined -> get parsed k = ok (field parsed k).
Proof.
  intros Hnull Hundef. unfold field.
  destruct parsed; cbn; try reflexivity; try congruence.
  destruct (own props k); reflexivity.
Qed.

(** The first resolution, down to the required-field check. *)
Lemma getDbConfig_first s l arn res parsed :
  Index.cachedConfig s = None ->
  env W "DB_SECRET_ARN" = Some arn -> arn <> "" ->
  getSecretValue W arn = ok res ->
  JSON_parse (Index.secret_text res) = Some parsed ->
  parsed <> VNull -> parsed <> VUndefined ->
  Index.getDbConfig W s l =
  match resolved_port parsed with
  | inl e => (inl e, s, l)
  | inr n =>
      if supplies parsed "host" && supplies parsed "username" && supplies parsed "password"
      then
        let cfg := {| Index.host := field parsed "host";
                      Index.user := field parsed "username";
                      Index.password := field parsed "password";
                      Index.database := resolved_database parsed;
                      Index.port := n |} in
        (inr cfg, Index.set_cachedConfig cfg s, l)
      else (inl (Error "DB secret missing required fields"), s, l)
  end.
Proof.
  intros Hcache Henv Harn Hsecret Hparse Hnull Hundef.
  unfold Index.getDbConfig, bind, gets, lift, throw, ret, modify.
  rewrite Hcache, Henv.
  destruct arn as [|c arn]; [congruence|].
  rewrite Hsecret. unfold ok at 1. cbv beta iota. rewrite Hparse.
  rewrite !(get_field parsed _ Hnull Hundef).
  unfold resolved_port, resolved_database, supplies, ok, rbind.
  destruct (truthy (field parsed "dbname"));
    destruct (truthy (field parsed "database"));
    destruct (truthy (field parsed "port"));
    try destruct (ToNumber (field parsed "port"));
    destruct (truthy (field parsed "host"));
    destruct (truthy (field parsed "username"));
    destruct (truthy (field parsed "password"));
    reflexivity.
Qed.

(** Without a pool, a failed resolution fails [getPool]. *)
Lemma getPool_needs_config s l e s1 :
  Index.pool s = None ->
  Index.getDbConfig W s l = (inl e, s1, l) ->
  Index.getPool W s l = (inl e, s1, l).
Proof.
  intros Hpool Hcfg. unfold Index.getPool, bind, gets. rewrite Hpool, Hcfg. reflexivity.
Qed.

End Configuration.

(** C8, as stated, fails: a secret that supplies host, password and the
    user under the key [user] is refused. *)
Lemma getDbConfig_ignores_user_key :
  Reference.parse (Sample.js Sample.user_secret) =
  Some (VObj [("host", VStr "db.internal"); ("user", VStr "app");
              ("password", VStr "s3cret")]) /\
  Index.getDbConfig (rt := Reference.runtime)
    (Sample.world (Some "arn:secret") Sample.user_secret Sample.catalog_AB)
    Sample.fresh [] =
  (inl (Error "DB secret missing required fields"), Sample.fresh, []).
Proof.
  split; vm_compute; reflexivity.
Qed.

(** C8, amended.  On its first resolution, from a secret that parses to
    a value other than [null], [getDbConfig] succeeds exactly when the
    secret supplies [host], [username] (the only key read for the user)
    and [password] and the coercion of a supplied [port] does not
    throw; the configuration then takes the database from [dbname] or
    else [database], defaulting to the fixed store name, and the port
    from [port], defaulting to 3306.  When it fails and no pool exists
    yet, [getProducts] and [createOrder] on a cart answer 500 without
    any collaborator call. *)
Theorem getDbConfig_resolution
    {rt : JSRuntime} (W : World) s l arn res parsed :
  Index.cachedConfig s = None ->
  env W "DB_SECRET_ARN" = Some arn -> arn <> "" ->
  getSecretValue W arn = ok res ->
  JSON_parse (Index.secret_text res) = Some parsed ->
  parsed <> VNull -> parsed <> VUndefined ->
  (forall cfg s1 l1,
     Index.getDbConfig W s l = (inr cfg, s1, l1) <->
     supplies parsed "host" = true /\
     supplies parsed "username" = true /\
     supplies parsed "password" = true /\
     resolved_port parsed = ok (Index.port cfg) /\
     cfg = {| Index.host := field parsed "host";
              Index.user := field parsed "username";
              Index.password := field parsed "password";
              Index.database := resolved_database parsed;
              Index.port := Index.port cfg |} /\
     s1 = Index.set_cachedConfig cfg s /\ l1 = l) /\
  (supplies parsed "dbname" = false -> supplies parsed "database" = false ->
   resolved_database parsed = VStr "storedb") /\
  (supplies parsed "port" = false -> resolved_port parsed = ok 3306%float) /\
  (forall e s1,
     Index.getDbConfig W s l = (inl e, s1, l) -> Index.pool s = None ->
     Index.getProducts W s l = (inr (Index.response 500 DB_ERROR), s1, l) /\
     forall event items,
       validate event = Cart items ->
       Index.createOrder W event s l = (inr (Index.response 500 DB_ERROR), s1, l)).
Proof.
  intros Hcache Henv Harn Hsecret Hparse Hnull Hundef.
  pose proof (getDbConfig_first W s l arn res parsed
                Hcache Henv Harn Hsecret Hparse Hnull Hundef) as Hfirst.
  split; [|split; [|split]].
  - intros cfg s1 l1. rewrite Hfirst.
    destruct (resolved_port parsed) as [e|n] eqn:Hport.
    + split; [discriminate|]. intros (_ & _ & _ & H & _). discriminate H.
    + destruct (supplies parsed "host"), (supplies parsed "username"),
        (supplies parsed "password"); cbn [andb];
        (split;
         [ intros H; try discriminate H; injection H as <- <- <-;
           repeat split; reflexivity
         | intros (Hh & Hu & Hp & Hn & Hc & -> & ->); try discriminate;
           unfold ok in Hn; injection Hn as Hn; rewrite Hc, <- Hn; reflexivity ]).
  - intros Hdbname Hdatabase. unfold resolved_database.
    now rewrite Hdbname, Hdatabase.
  - intros Hport. unfold resolved_port. now rewrite Hport.
  - intros e s1 Hfail Hpool.
    pose proof (getPool_needs_config W s l e s1 Hpool Hfail) as Hgp.
    split.
    + unfold Index.getProducts, try_catch, bind. rewrite Hgp. reflexivity.
    + intros event items Hv. apply path_sound. eapply path_no_pool; eauto.
Qed.

Lemma getDbConfig_resolution_witness :
  Index.getDbConfig (rt := Reference.runtime) Sample.shop_AB Sample.fresh [] =
  (inr Sample.good_config,
   {| Index.pool := None; Index.cachedConfig := Some Sample.good_config |}, []).
Proof.
  refine (proj2 (proj1 (getDbConfig_resolution (rt := Reference.runtime)
            Sample.shop_AB Sample.fresh [] "arn:secret"
            {| SecretString := Some (Sample.js Sample.good_secret); SecretBinary := None |}
            (VObj [("host", VStr "db.internal"); ("username", VStr "app");
                   ("password", VStr "s3cret")])
            _ _ _ _ _ _ _) _ _ _) _).
  - reflexivity.
  - reflexivity.
  - discriminate.
  - reflexivity.
  - vm_compute. reflexivity.
  - discriminate.
  - discriminate.
  - repeat split; reflexivity.
Defined.

(** ** The packaged copy *)

Section Copies.
Context {rt : JSRuntime}.
Variable W : World.

Local Open Scope m_scope.

(** The copy builds its pool from the environment and cannot fail. *)
Lemma copy_getPool_succeeds s l :
  exists p s', HealthFunction.getPool W s l = (inr p, s', l).
Proof.
  unfold HealthFunction.getPool, bind, gets, modify, ret.
  destruct (HealthFunction.pool s); eauto.
Qed.

Lemma copy_response n v : HealthFunction.response n v = Index.response n v.
Proof. reflexivity. Qed.

(** The two loops are the same function. *)
Lemma copy_price_items priceMap items :
  forall total,
    HealthFunction.price_items priceMap items total =
    Index.price_items priceMap items total.
Proof.
  induction items as [|item rest IH]; intros total.
  - reflexivity.
  - cbn [HealthFunction.price_items Index.price_items].
    change (HealthFunction.resolve_quantity item) with (Index.resolve_quantity item).
    destruct (Index.resolve_quantity item) as [e|qty]; [reflexivity|].
    cbn [rbind]. destruct (get item "productId") as [e|pid]; [reflexivity|].
    cbn [rbind]. destruct (Map_get priceMap pid); [apply IH | reflexivity].
Qed.

Lemma copy_createOrder_rejected event s l :
  HealthFunction.createOrder W event s l =
  match validate event with
  | EmptyBody => (inr (Index.response 400 (VObj [("error", VStr "EMPTY_BODY")])), s, l)
  | InvalidJson => (inr (Index.response 400 (VObj [("error", VStr "INVALID_JSON")])), s, l)
  | Unreadable => (inr (Index.response 500 DB_ERROR), s, l)
  | EmptyCart => (inr (Index.response 400 (VObj [("error", VStr "EMPTY_CART")])), s, l)
  | Cart _ => HealthFunction.createOrder W event s l
  end.
Proof.
  unfold validate, HealthFunction.createOrder, HealthFunction.createOrder_body.
  unfold try_catch, bind, lift.
  destruct (get event "body") as [e|body]; try reflexivity.
  destruct (truthy body); cbn [negb]; try reflexivity.
  destruct (JSON_parse_value body) as [e|payload]; try reflexivity.
  destruct (get payload "items") as [e|[| | | | |[|first others]|]]; reflexivity.
Qed.

Lemma copy_createOrder_on_cart event items s l :
  validate event = Cart items ->
  HealthFunction.createOrder W event s l =
  try_catch
    (_ <- HealthFunction.getPool W ;;
     ids <- lift (productIds items) ;;
     products <- query (SelectPrices ids) (select_prices W ids) ;;
     entries <- lift (price_entries products) ;;
     exit <- lift (HealthFunction.price_items (Map_new entries) items 0%float) ;;
     match exit with
     | Return r => ret r
     | Fallthrough total =>
         _ <- query (InsertOrder total) (insert_order W total) ;;
         ret (Index.response 201 (ORDER_OK total))
     end)
    (fun _ => ret (Index.response 500 DB_ERROR)) s l.
Proof.
  unfold validate, HealthFunction.createOrder, HealthFunction.createOrder_body.
  unfold try_catch, bind, lift.
  destruct (get event "body") as [e|body]; try discriminate.
  destruct (truthy body); cbn [negb]; try discriminate.
  destruct (JSON_parse_value body) as [e|payload]; try discriminate.
  destruct (get payload "items") as [e|[| | | | |[|first others]|]]; try discriminate.
  intros H. injection H as <-. reflexivity.
Qed.

End Copies.

(** C9, as stated, fails: the two copies obtain their pool differently.
    Where no secret is configured, [createOrder] of src/index.js
    answers 500 and issues no call, while the packaged copy serves the
    same request with the same collaborators. *)
Lemma createOrder_copies_differ_without_secret :
  Index.createOrder (rt := Reference.runtime) Sample.unconfigured_shop
    (Sample.request "{'items':[{'productId':'A'}]}") Sample.fresh [] =
  (inr (Sample.reply 500 "{'error':'DB_ERROR'}"), Sample.fresh, []) /\
  fst (fst (HealthFunction.createOrder (rt := Reference.runtime) Sample.unconfigured_shop
              (Sample.request "{'items':[{'productId':'A'}]}") Sample.fresh_copy [])) =
  inr (Sample.reply 201 "{'status':'ok','total':5}") /\
  snd (HealthFunction.createOrder (rt := Reference.runtime) Sample.unconfigured_shop
         (Sample.request "{'items':[{'productId':'A'}]}") Sample.fresh_copy []) =
  [SelectPrices [VStr "A"]; InsertOrder 5].
Proof.
  repeat split; vm_compute; reflexivity.
Qed.

(** C9, amended.  For every event, every behaviour of the collaborators
    and every state of the two processes, the two copies of
    [createOrder] return the same response and issue the same calls
    provided that, when the request carries a cart, [getPool] of
    src/index.js yields a pool (one is cached, or the configuration
    resolves). *)
Theorem createOrder_copies_agree
    {rt : JSRuntime} (W : World) event s1 s2 l :
  (forall items,
     validate event = Cart items ->
     exists p s1', Index.getPool W s1 l = (inr p, s1', l)) ->
  fst (fst (Index.createOrder W event s1 l)) =
  fst (fst (HealthFunction.createOrder W event s2 l)) /\
  snd (Index.createOrder W event s1 l) =
  snd (HealthFunction.createOrder W event s2 l).
Proof.
  intros Hpool.
  destruct (validate event) as [| | | |items] eqn:Hv;
    try (rewrite createOrder_rejected, copy_createOrder_rejected, Hv; split; reflexivity).
  destruct (Hpool items eq_refl) as (p1 & s1' & Hp1).
  destruct (copy_getPool_succeeds W s2 l) as (p2 & s2' & Hp2).
  rewrite (createOrder_on_cart W event items s1 l Hv).
  rewrite (copy_createOrder_on_cart W event items s2 l Hv).
  unfold try_catch, bind. rewrite Hp1, Hp2.
  unfold lift, query, ret.
  destruct (productIds items) as [e|ids]; [split; reflexivity|].
  destruct (select_prices W ids) as [e|products]; [split; reflexivity|].
  destruct (price_entries products) as [e|entries]; [split; reflexivity|].
  change (HealthFunction.price_items (Map_new entries) items 0%float)
    with (Index.price_items (Map_new entries) items 0%float).
  destruct (Index.price_items (Map_new entries) items 0%float) as [e|[r|total]];
    try (split; reflexivity).
  destruct (insert_order W total) as [e|header]; split; reflexivity.
Qed.

Lemma createOrder_copies_agree_witness :
  fst (fst (Index.createOrder (rt := Reference.runtime) Sample.shop_AB
              (Sample.request "{'items':[{'productId':'A','quantity':2},{'productId':'B','quantity':1}]}")
              Sample.fresh [])) =
  fst (fst (HealthFunction.createOrder (rt := Reference.runtime) Sample.shop_AB
              (Sample.request "{'items':[{'productId':'A','quantity':2},{'productId':'B','quantity':1}]}")
              Sample.fresh_copy [])) /\
  snd (Index.createOrder (rt := Reference.runtime) Sample.shop_AB
         (Sample.request "{'items':[{'productId':'A','quantity':2},{'productId':'B','quantity':1}]}")
         Sample.fresh []) =
  snd (HealthFunction.createOrder (rt := Reference.runtime) Sample.shop_AB
         (Sample.request "{'items':[{'productId':'A','quantity':2},{'productId':'B','quantity':1}]}")
         Sample.fresh_copy []).
Proof.
  apply (createOrder_copies_agree (rt := Reference.runtime)).
  intros items _. exists Sample.good_pool, Sample.warm. vm_compute. reflexivity.
Defined.

(** ** The examples of the specification *)

(** A missing body, a [null] body and an empty body are all empty. *)
Example empty_bodies_are_rejected :
  forall (W : World) s l,
    Index.createOrder (rt := Reference.runtime) W (VObj []) s l =
    (inr (Sample.reply 400 "{'error':'EMPTY_BODY'}"), s, l) /\
    Index.createOrder (rt := Reference.runtime) W (VObj [("body", VNull)]) s l =
    (inr (Sample.reply 400 "{'error':'EMPTY_BODY'}"), s, l) /\
    Index.createOrder (rt := Reference.runtime) W (VObj [("body", VStr "")]) s l =
    (inr (Sample.reply 400 "{'error':'EMPTY_BODY'}"), s, l).
Proof.
  intros W s l.
  repeat split;
    rewrite (createOrder_rejected (rt := Reference.runtime)); reflexivity.
Qed.

Example malformed_body_is_rejected :
  forall (W : World) s l,
    Index.createOrder (rt := Reference.runtime) W (Sample.request "{not json") s l =
    (inr (Sample.reply 400 "{'error':'INVALID_JSON'}"), s, l).
Proof.
  intros W s l. rewrite (createOrder_rejected (rt := Reference.runtime)). reflexivity.
Qed.

Example empty_cart_is_rejected :
  forall (W : World) s l,
    Index.createOrder (rt := Reference.runtime) W (Sample.request "{'items':[]}") s l =
    (inr (Sample.reply 400 "{'error':'EMPTY_CART'}"), s, l) /\
    Index.createOrder (rt := Reference.runtime) W (Sample.request "{'items':'A'}") s l =
    (inr (Sample.reply 400 "{'error':'EMPTY_CART'}"), s, l) /\
    Index.createOrder (rt := Reference.runtime) W (Sample.request "[1,2]") s l =
    (inr (Sample.reply 400 "{'error':'EMPTY_CART'}"), s, l).
Proof.
  intros W s l.
  repeat split;
    rewrite (createOrder_rejected (rt := Reference.runtime)); reflexivity.
Qed.

Example unknown_product_is_reported :
  Index.createOrder (rt := Reference.runtime) Sample.shop_AB
    (Sample.request "{'items':[{'productId':'x'}]}") Sample.fresh [] =
  (inr (Sample.reply 400 "{'error':'PRODUCT_NOT_FOUND','productId':'x'}"),
   Sample.warm, [SelectPrices [VStr "x"]]).
Proof. vm_compute. reflexivity. Qed.

(** An item without [productId] is reported without one: a property
    whose value is [undefined] is left out of the serialization. *)
Example missing_productId_is_reported_bare :
  Index.createOrder (rt := Reference.runtime) Sample.shop_AB
    (Sample.request "{'items':[{'quantity':1}]}") Sample.fresh [] =
  (inr (Sample.reply 400 "{'error':'PRODUCT_NOT_FOUND'}"),
   Sample.warm, [SelectPrices [VUndefined]]).
Proof. vm_compute. reflexivity. Qed.

Example two_items_total_13 :
  Index.createOrder (rt := Reference.runtime) Sample.shop_AB
    (Sample.request "{'items':[{'productId':'A','quantity':2},{'productId':'B','quantity':1}]}")
    Sample.fresh [] =
  (inr (Sample.reply 201 "{'status':'ok','total':13}"),
   Sample.warm, [SelectPrices [VStr "A"; VStr "B"]; InsertOrder 13]).
Proof. vm_compute. reflexivity. Qed.

(** Neither sign nor integrality of a quantity is checked. *)
Example negative_fractional_quantity :
  Index.createOrder (rt := Reference.runtime) Sample.shop_AB
    (Sample.request "{'items':[{'productId':'A','quantity':-2.5}]}")
    Sample.fresh [] =
  (inr (Sample.reply 201 "{'status':'ok','total':-12.5}"),
   Sample.warm, [SelectPrices [VStr "A"]; InsertOrder (-12.5)]).
Proof. vm_compute. reflexivity. Qed.

(** A quantity that cannot be converted to a number raises inside the
    loop, after the lookup. *)
Example unconvertible_quantity :
  Index.createOrder (rt := Reference.runtime) Sample.shop_AB
    (Sample.request "{'items':[{'productId':'A','quantity':{'toString':1}}]}")
    Sample.fresh [] =
  (inr (Sample.reply 500 "{'error':'DB_ERROR'}"),
   Sample.warm, [SelectPrices [VStr "A"]]).
Proof. vm_compute. reflexivity. Qed.

Example empty_catalog_lists_nothing :
  Index.getProducts (rt := Reference.runtime) Sample.shop_AB Sample.fresh [] =
  (inr (Sample.reply 200 "[]"), Sample.warm, [SelectProducts]).
Proof. vm_compute. reflexivity. Qed.

Example health_is_ok :
  forall s l,
    Index.health (rt := Reference.runtime) s l =
    (inr (Sample.reply 200 "{'status':'ok'}"), s, l).
Proof. reflexivity. Qed.

(** ** The reference runtime at work *)

Example parse_reads_a_cart :
  Reference.parse (Sample.js "{ 'items' : [ {'productId':'A', 'quantity':2.50e0} ] }") =
  Some (VObj [("items", VArr [VObj [("productId", VStr "A"); ("quantity", VNum 2.5)]])]).
Proof. vm_compute. reflexivity. Qed.

Example parse_rejects_what_is_not_json :
  Reference.parse "{not json" = None /\
  Reference.parse "" = None /\
  Reference.parse "undefined" = None /\
  Reference.parse "[1,]" = None /\
  Reference.parse "01" = None.
Proof. repeat split; vm_compute; reflexivity. Qed.

Example number_of_text :
  Reference.string_to_number "5.00" = 5%float /\
  Reference.string_to_number " 12 " = 12%float /\
  Reference.string_to_number "" = 0%float /\
  Reference.string_to_number "0x10" = 16%float /\
  is_nan (Reference.string_to_number "12px") = true.
Proof. repeat split; vm_compute; reflexivity. Qed.

Example number_of_values :
  ToNumber (rt := Reference.runtime) (VArr []) = ok 0%float /\
  ToNumber (rt := Reference.runtime) (VArr [VNum 4]) = ok 4%float /\
  ToNumber (rt := Reference.runtime) (VBool true) = ok 1%float /\
  ToNumber (rt := Reference.runtime) (VObj [("toString", VNum 1)]) =
  raise (TypeError "Cannot convert object to primitive value").
Proof. repeat split; vm_compute; reflexivity. Qed.

Example text_of_numbers :
  Reference.number_to_string 13 = "13" /\
  Reference.number_to_string (-12.5) = "-12.5" /\
  Reference.number_to_string (0x1.999999999999ap-4 + 0x1.999999999999ap-3) =
  "0.30000000000000004" /\
  Reference.number_to_string 1e21 = "1e+21" /\
  Reference.stringify (VObj [("total", VNum nan)]) = Sample.js "{'total':null}".
Proof. repeat split; vm_compute; reflexivity. Qed.

(** A rejected statement is answered with the same opaque body,
    whatever the driver reported. *)
Example rejected_statements_are_opaque :
  Index.createOrder (rt := Reference.runtime) Sample.shop_offline
    (Sample.request "{'items':[{'productId':'A'}]}") Sample.fresh [] =
  (inr (Sample.reply 500 "{'error':'DB_ERROR'}"), Sample.warm,
   [SelectPrices [VStr "A"]]) /\
  Index.createOrder (rt := Reference.runtime) Sample.shop_readonly
    (Sample.request "{'items':[{'productId':'A'}]}") Sample.fresh [] =
  (inr (Sample.reply 500 "{'error':'DB_ERROR'}"), Sample.warm,
   [SelectPrices [VStr "A"]; InsertOrder 5]) /\
  Index.getProducts (rt := Reference.runtime) Sample.shop_offline Sample.fresh [] =
  (inr (Sample.reply 500 "{'error':'DB_ERROR'}"), Sample.warm, [SelectProducts]) /\
  Index.getProducts (rt := Reference.runtime) Sample.unconfigured_shop Sample.fresh [] =
  (inr (Sample.reply 500 "{'error':'DB_ERROR'}"), Sample.fresh, []).
Proof. repeat split; vm_compute; reflexivity. Qed.

(** ** The process between requests *)

Section Caching.
Context {rt : JSRuntime}.

Lemma all_required a b c :
  negb a || negb b || negb c = false -> a = true /\ b = true /\ c = true.
Proof. destruct a, b, c; cbn; intros H; try discriminate H; auto. Qed.

(** What [getDbConfig] leaves behind: nothing when it throws; when it
    returns, either the configuration was cached already, or it is new,
    complete and now cached. *)
Lemma getDbConfig_outcome (W : World) s l :
  match Index.getDbConfig W s l with
  | (inl _, s', l') => s' = s /\ l' = l /\ Index.cachedConfig s = None
  | (inr cfg, s', l') =>
      l' = l /\
      ((Index.cachedConfig s = Some cfg /\ s' = s) \/
       (Index.cachedConfig s = None /\ s' = Index.set_cachedConfig cfg s /\ complete cfg))
  end.
Proof.
  unfold Index.getDbConfig, bind, gets, lift, throw, ret, modify.
  destruct (Index.cachedConfig s) as [cached|] eqn:Hc; [auto|].
  destruct (env W "DB_SECRET_ARN") as [[|c arn]|]; auto.
  destruct (getSecretValue W (String c arn)) as [e|res]; auto.
  destruct (JSON_parse (Index.secret_text res)) as [parsed|]; auto.
  repeat match goal with
         | |- context [match ?r with inl _ => _ | inr _ => _ end] =>
             destruct r eqn:?; cbn [rbind]
         | |- context [if ?b then _ else _] => destruct b eqn:?
         end;
    auto;
    (split; [reflexivity|]; right; split; [reflexivity|]; split; [reflexivity|]);
    match goal with
    | H : negb _ || negb _ || negb _ = false |- _ => exact (all_required _ _ _ H)
    end.
Qed.

(** What [getPool] leaves behind. *)
Lemma getPool_outcome (W : World) s l :
  match Index.getPool W s l with
  | (inl _, s', l') =>
      s' = s /\ l' = l /\ Index.pool s = None /\ Index.cachedConfig s = None
  | (inr p, s', l') =>
      l' = l /\ Index.pool s' = Some p /\
      ((Index.pool s = Some p /\ s' = s) \/
       (Index.pool s = None /\
        exists cfg s1,
          Index.getDbConfig W s l = (inr cfg, s1, l) /\
          Index.cachedConfig s1 = Some cfg /\
          p = pool_of cfg /\ s' = Index.set_pool p s1))
  end.
Proof.
  unfold Index.getPool, bind, gets, modify, ret.
  destruct (Index.pool s) as [p|] eqn:Hpool; [auto|].
  pose proof (getDbConfig_outcome W s l) as Hcfg.
  destruct (Index.getDbConfig W s l) as [[[e|cfg] s1] l1].
  - destruct Hcfg as (-> & -> & Hnone). auto.
  - destruct Hcfg as (-> & Hcase). cbn.
    split; [reflexivity|]. split; [reflexivity|]. right. split; [reflexivity|].
    exists cfg, s1. repeat split; try reflexivity.
    destruct Hcase as [(Hc & ->)|(_ & -> & _)]; [exact Hc | reflexivity].
Qed.

(** The state after [createOrder] is the state after [getPool] when the
    request carries a cart, and the state before otherwise. *)
Lemma createOrder_state (W : World) event s l :
  snd (fst (Index.createOrder W event s l)) =
  match validate event with
  | Cart _ => snd (fst (Index.getPool W s l))
  | _ => s
  end.
Proof.
  destruct (path_complete W event s l) as (r & s' & l' & Hrun & Hp).
  rewrite Hrun. cbn [fst snd].
  destruct Hp;
    match goal with
    | H : validate event = _ |- _ => rewrite H
    end;
    try reflexivity;
    match goal with
    | H : Index.getPool W s l = _ |- _ => rewrite H
    end;
    reflexivity.
Qed.

(** The state after [getProducts] is the state after [getPool]. *)
Lemma getProducts_state (W : World) s l :
  snd (fst (Index.getProducts W s l)) = snd (fst (Index.getPool W s l)).
Proof.
  destruct (getProducts_cases W s l)
    as [(e & s' & Hp & Hrun)|[(p & s' & e & Hp & Hs & Hrun)|(p & s' & rows & Hp & Hs & Hrun)]];
    rewrite Hrun, Hp; reflexivity.
Qed.

(** [getPool] keeps a coherent state coherent. *)
Lemma getPool_coherent (W : World) s l :
  coherent s -> coherent (snd (fst (Index.getPool W s l))).
Proof.
  intros Hs.
  pose proof (getPool_outcome W s l) as Hout.
  destruct (Index.getPool W s l) as [[[e|p] s'] l']; cbn [fst snd].
  - destruct Hout as (-> & _). exact Hs.
  - destruct Hout as (_ & _ & [(_ & ->)|(Hnone & cfg & s1 & Hcfg & Hcached & -> & ->)]);
      [exact Hs|].
    pose proof (getDbConfig_outcome W s l) as Hc. rewrite Hcfg in Hc.
    destruct Hc as (_ & [(Hold & ->)|(Hnew & -> & Hcomplete)]).
    + split.
      * intros c Hcc. apply (proj1 Hs c). exact Hcc.
      * intros p Hp. cbn in Hp. injection Hp as <-. exists cfg. auto.
    + split.
      * intros c Hcc. cbn in Hcc. injection Hcc as <-. exact Hcomplete.
      * intros p Hp. cbn in Hp. injection Hp as <-. exists cfg. auto.
Qed.

End Caching.

(** X1.  Once [getPool] has returned a pool, every later [getPool] of
    the process returns that same pool and changes nothing, whatever
    the environment and the secret store have become. *)
Theorem getPool_keeps_its_pool
    {rt : JSRuntime} (W : World) s l p s' l' :
  Index.getPool W s l = (inr p, s', l') ->
  l' = l /\ Index.pool s' = Some p /\
  forall (W2 : World) l2, Index.getPool W2 s' l2 = (inr p, s', l2).
Proof.
  intros Hrun. pose proof (getPool_outcome W s l) as Hout. rewrite Hrun in Hout.
  destruct Hout as (-> & Hpool & _).
  repeat split; try assumption.
  intros W2 l2. unfold Index.getPool, bind, gets. rewrite Hpool. reflexivity.
Qed.

Lemma getPool_keeps_its_pool_witness :
  Index.getPool (rt := Reference.runtime) Sample.unconfigured_shop Sample.warm
    [SelectProducts] =
  (inr Sample.good_pool, Sample.warm, [SelectProducts]).
Proof.
  apply (getPool_keeps_its_pool (rt := Reference.runtime)
           Sample.shop_AB Sample.fresh [] Sample.good_pool Sample.warm []).
  vm_compute. reflexivity.
Defined.

(** X2.  Once [getDbConfig] has returned a configuration, every later
    call returns that same configuration without reading the
    environment or the secret again: a secret that changes afterwards
    is never seen by the process. *)
Theorem getDbConfig_is_resolved_once
    {rt : JSRuntime} (W : World) s l cfg s' l' :
  Index.getDbConfig W s l = (inr cfg, s', l') ->
  l' = l /\ Index.cachedConfig s' = Some cfg /\
  forall (W2 : World) l2, Index.getDbConfig W2 s' l2 = (inr cfg, s', l2).
Proof.
  intros Hrun. pose proof (getDbConfig_outcome W s l) as Hout. rewrite Hrun in Hout.
  destruct Hout as (-> & Hcase).
  assert (Hcached : Index.cachedConfig s' = Some cfg).
  { destruct Hcase as [(Hc & ->)|(_ & -> & _)]; [exact Hc | reflexivity]. }
  repeat split; try assumption.
  intros W2 l2. unfold Index.getDbConfig, bind, gets. rewrite Hcached. reflexivity.
Qed.

Lemma getDbConfig_is_resolved_once_witness :
  Index.getDbConfig (rt := Reference.runtime) Scenario.shop_rotated
    {| Index.pool := None; Index.cachedConfig := Some Sample.good_config |} [] =
  (inr Sample.good_config,
   {| Index.pool := None; Index.cachedConfig := Some Sample.good_config |}, []).
Proof.
  apply (getDbConfig_is_resolved_once (rt := Reference.runtime)
           Sample.shop_AB Sample.fresh [] Sample.good_config _ []).
  vm_compute. reflexivity.
Defined.

(** X3.  A failure of [getDbConfig] or of [getPool] leaves nothing
    behind: the module state and the log are unchanged and neither a
    configuration nor a pool is cached, so the next request resolves
    the configuration again. *)
Theorem failed_resolution_is_not_remembered
    {rt : JSRuntime} (W : World) s l e s' l' :
  Index.getDbConfig W s l = (inl e, s', l') \/ Index.getPool W s l = (inl e, s', l') ->
  s' = s /\ l' = l /\ Index.cachedConfig s = None.
Proof.
  intros [Hrun|Hrun].
  - pose proof (getDbConfig_outcome W s l) as Hout. rewrite Hrun in Hout. exact Hout.
  - pose proof (getPool_outcome W s l) as Hout. rewrite Hrun in Hout.
    destruct Hout as (-> & -> & Hp & Hc). auto.
Qed.

Lemma failed_resolution_is_not_remembered_witness :
  Index.getPool (rt := Reference.runtime) Scenario.shop_rotated Sample.fresh [] =
  (inl (Error "DB secret missing required fields"), Sample.fresh, []) /\
  Index.cachedConfig Sample.fresh = None.
Proof.
  assert (Hrun : Index.getPool (rt := Reference.runtime) Scenario.shop_rotated
                   Sample.fresh [] =
                 (inl (Error "DB secret missing required fields"), Sample.fresh, []))
    by (vm_compute; reflexivity).
  split; [exact Hrun|].
  exact (proj2 (proj2 (failed_resolution_is_not_remembered (rt := Reference.runtime)
                         Scenario.shop_rotated Sample.fresh [] _ _ _ (or_intror Hrun)))).
Defined.

Section Agreement.
Context {rt : JSRuntime}.

Local Open Scope m_scope.

Lemma same_database_refl (W : World) : same_database W W.
Proof. repeat split. Qed.

(** Two runs of [createOrder] on the same event, whose [getPool]
    yields a pool in both and whose worlds share their database, return
    the same response and issue the same calls. *)
Lemma createOrder_agree (W1 W2 : World) event s1 s2 l :
  same_database W1 W2 ->
  (forall items,
     validate event = Cart items ->
     (exists p s', Index.getPool W1 s1 l = (inr p, s', l)) /\
     (exists p s', Index.getPool W2 s2 l = (inr p, s', l))) ->
  fst (fst (Index.createOrder W1 event s1 l)) =
  fst (fst (Index.createOrder W2 event s2 l)) /\
  snd (Index.createOrder W1 event s1 l) = snd (Index.createOrder W2 event s2 l).
Proof.
  intros (_ & Hprices & Hinsert) Hpools.
  destruct (validate event) as [| | | |items] eqn:Hv;
    try (rewrite (createOrder_rejected W1), (createOrder_rejected W2), Hv;
         split; reflexivity).
  destruct (Hpools items eq_refl) as ((p1 & s1' & Hp1) & (p2 & s2' & Hp2)).
  rewrite (createOrder_on_cart W1 event items s1 l Hv).
  rewrite (createOrder_on_cart W2 event items s2 l Hv).
  unfold try_catch, bind. rewrite Hp1, Hp2.
  unfold lift, query, ret.
  destruct (productIds items) as [e|ids]; [split; reflexivity|].
  rewrite <- (Hprices ids).
  destruct (select_prices W1 ids) as [e|products]; [split; reflexivity|].
  destruct (price_entries products) as [e|entries]; [split; reflexivity|].
  destruct (Index.price_items (Map_new entries) items 0%float) as [e|[r|total]];
    try (split; reflexivity).
  rewrite <- (Hinsert total).
  destruct (insert_order W1 total) as [e|header]; split; reflexivity.
Qed.

Lemma getPool_cached (W : World) s l p :
  Index.pool s = Some p -> Index.getPool W s l = (inr p, s, l).
Proof. intros Hp. unfold Index.getPool, bind, gets. rewrite Hp. reflexivity. Qed.

End Agreement.

(** X4.  A process that holds a pool is left as it is by [createOrder]
    and [getProducts], and what they answer no longer depends on the
    environment or on the secret store: two worlds with the same
    database give the same response and the same calls. *)
Theorem warm_process_ignores_configuration
    {rt : JSRuntime} (W1 W2 : World) event s l p :
  Index.pool s = Some p ->
  same_database W1 W2 ->
  Index.createOrder W1 event s l = Index.createOrder W2 event s l /\
  Index.getProducts W1 s l = Index.getProducts W2 s l /\
  snd (fst (Index.createOrder W1 event s l)) = s /\
  snd (fst (Index.getProducts W1 s l)) = s.
Proof.
  intros Hpool Hdb.
  assert (Hstate : forall W : World, snd (fst (Index.createOrder W event s l)) = s).
  { intros W. rewrite createOrder_state, (getPool_cached W s l p Hpool).
    destruct (validate event); reflexivity. }
  assert (Hlist : forall W : World, snd (fst (Index.getProducts W s l)) = s).
  { intros W. rewrite getProducts_state, (getPool_cached W s l p Hpool). reflexivity. }
  repeat split; try apply Hstate; try apply Hlist.
  - destruct (createOrder_agree W1 W2 event s s l Hdb) as (Hr & Hl).
    { intros items _. split; exists p, s; apply getPool_cached; exact Hpool. }
    pose proof (Hstate W1) as H1. pose proof (Hstate W2) as H2.
    destruct (Index.createOrder W1 event s l) as [[r1 t1] l1].
    destruct (Index.createOrder W2 event s l) as [[r2 t2] l2].
    cbn in *. congruence.
  - unfold Index.getProducts, try_catch, bind, query, ret.
    rewrite (getPool_cached W1 s l p Hpool), (getPool_cached W2 s l p Hpool).
    destruct Hdb as (-> & _). reflexivity.
Qed.

Lemma warm_process_ignores_configuration_witness :
  Index.createOrder (rt := Reference.runtime) Sample.unconfigured_shop
    (Sample.request "{'items':[{'productId':'B','quantity':4}]}") Sample.warm [] =
  (inr (Sample.reply 201 "{'status':'ok','total':12}"), Sample.warm,
   [SelectPrices [VStr "B"]; InsertOrder 12]).
Proof.
  rewrite (proj1 (warm_process_ignores_configuration (rt := Reference.runtime)
                    Sample.unconfigured_shop Sample.shop_AB _ Sample.warm []
                    Sample.good_pool eq_refl
                    (conj eq_refl (conj (fun _ => eq_refl) (fun _ => eq_refl))))).
  vm_compute. reflexivity.
Defined.

(** X5.  The first request of a process, which creates the pool, is
    answered like the same request on the process once it holds the
    pool: same response, same calls, same final state. *)
Theorem first_request_is_served_like_the_next
    {rt : JSRuntime} (W : World) event s l p s' :
  Index.getPool W s l = (inr p, s', l) ->
  fst (fst (Index.createOrder W event s l)) =
  fst (fst (Index.createOrder W event s' l)) /\
  snd (Index.createOrder W event s l) = snd (Index.createOrder W event s' l) /\
  (forall items, validate event = Cart items ->
     snd (fst (Index.createOrder W event s l)) = s' /\
     snd (fst (Index.createOrder W event s' l)) = s').
Proof.
  intros Hp.
  pose proof (getPool_outcome W s l) as Hout. rewrite Hp in Hout.
  destruct Hout as (_ & Hpool & _).
  pose proof (getPool_cached W s' l p Hpool) as Hp'.
  destruct (createOrder_agree W W event s s' l (same_database_refl W)) as (Hr & Hl).
  { intros items _. split; eauto. }
  split; [exact Hr|]. split; [exact Hl|].
  intros items Hv. rewrite !createOrder_state, Hv, Hp, Hp'. split; reflexivity.
Qed.

Lemma first_request_is_served_like_the_next_witness :
  fst (fst (Index.createOrder (rt := Reference.runtime) Sample.shop_AB
              (Sample.request "{'items':[{'productId':'B','quantity':4}]}")
              Sample.fresh [])) =
  inr (Sample.reply 201 "{'status':'ok','total':12}").
Proof.
  rewrite (proj1 (first_request_is_served_like_the_next (rt := Reference.runtime)
                    Sample.shop_AB _ Sample.fresh [] Sample.good_pool Sample.warm
                    eq_refl)).
  vm_compute. reflexivity.
Defined.

(** X6.  Coherence is an invariant of the process: from a coherent
    state (a fresh process is one), [getPool], [createOrder] and
    [getProducts] lead to a coherent state.  Hence a pool is never
    created with a missing host, user or password, and it always has
    the limits written in the source. *)
Theorem handlers_keep_the_process_coherent
    {rt : JSRuntime} (W : World) s l :
  coherent s ->
  coherent (snd (fst (Index.getPool W s l))) /\
  (forall event, coherent (snd (fst (Index.createOrder W event s l)))) /\
  coherent (snd (fst (Index.getProducts W s l))) /\
  (forall p,
     Index.pool s = Some p ->
     truthy (pool_host p) = true /\ truthy (pool_user p) = true /\
     truthy (pool_password p) = true /\
     waitForConnections p = true /\ connectionLimit p = 5%Z /\ queueLimit p = 0%Z).
Proof.
  intros Hs.
  pose proof (getPool_coherent W s l Hs) as Hpool.
  split; [exact Hpool|]. split; [|split].
  - intros event. rewrite createOrder_state. destruct (validate event); assumption.
  - rewrite getProducts_state. exact Hpool.
  - intros p Hheld. destruct Hs as (Hcfg & Hp).
    destruct (Hp p Hheld) as (cfg & Hc & ->).
    destruct (Hcfg cfg Hc) as (Hhost & Huser & Hpassword).
    cbn. repeat split; assumption.
Qed.

Lemma handlers_keep_the_process_coherent_witness :
  coherent (snd (fst (Index.createOrder (rt := Reference.runtime) Sample.shop_AB
                        (Sample.request "{'items':[{'productId':'B'}]}")
                        Sample.fresh []))).
Proof.
  apply (handlers_keep_the_process_coherent (rt := Reference.runtime)
           Sample.shop_AB Sample.fresh []).
  split; intros x Hx; discriminate Hx.
Defined.

(** ** The price map *)

Section SameValueZero.

(** Equality of spec floats, read off the comparison. *)
Lemma SFeqb_true a b :
  SFeqb a b = true ->
  match a, b with
  | S754_zero _, S754_zero _ => True
  | S754_infinity s1, S754_infinity s2 => s1 = s2
  | S754_finite s1 m1 e1, S754_finite s2 m2 e2 => s1 = s2 /\ m1 = m2 /\ e1 = e2
  | _, _ => False
  end.
Proof.
  unfold SFeqb, SFcompare.
  destruct a as [sa|sa| |sa ma ea], b as [sb|sb| |sb mb eb]; try discriminate;
    try (destruct sa; discriminate); try (destruct sb; discriminate); auto.
  all: try (destruct sa, sb; try discriminate; reflexivity).
  all: destruct sa, sb; try discriminate;
    destruct (Z.compare_spec ea eb); try discriminate;
    destruct (PosDef.Pos.compare_cont Eq ma mb) eqn:Hc; try discriminate;
    apply (Pos.compare_eq ma mb) in Hc; subst; auto.
Qed.

Lemma SFeqb_same_finite s m e : SFeqb (S754_finite s m e) (S754_finite s m e) = true.
Proof.
  unfold SFeqb, SFcompare. rewrite Z.compare_refl.
  change (PosDef.Pos.compare_cont Eq m m) with (Pos.compare m m).
  rewrite Pos.compare_refl. destruct s; reflexivity.
Qed.

Lemma float_eqb_sym x y : PrimFloat.eqb x y = true -> PrimFloat.eqb y x = true.
Proof.
  rewrite !eqb_spec. intros H. apply SFeqb_true in H.
  destruct (Prim2SF x) as [sa|sa| |sa ma ea], (Prim2SF y) as [sb|sb| |sb mb eb];
    try contradiction; try reflexivity.
  - subst. destruct sb; reflexivity.
  - destruct H as (-> & -> & ->). apply SFeqb_same_finite.
Qed.

Lemma float_eqb_trans x y z :
  PrimFloat.eqb x y = true -> PrimFloat.eqb y z = true -> PrimFloat.eqb x z = true.
Proof.
  rewrite !eqb_spec. intros H1 H2.
  apply SFeqb_true in H1. apply SFeqb_true in H2.
  destruct (Prim2SF x) as [sa|sa| |sa ma ea], (Prim2SF y) as [sb|sb| |sb mb eb],
    (Prim2SF z) as [sc|sc| |sc mc ec]; try contradiction; try reflexivity.
  - subst. destruct sc; reflexivity.
  - destruct H1 as (-> & -> & ->), H2 as (-> & -> & ->). apply SFeqb_same_finite.
Qed.

(** A number equal to another is not NaN. *)
Lemma float_eqb_not_nan x y : PrimFloat.eqb x y = true -> is_nan x = false /\ is_nan y = false.
Proof.
  intros H. unfold is_nan.
  rewrite (float_eqb_trans x y x H (float_eqb_sym x y H)).
  rewrite (float_eqb_trans y x y (float_eqb_sym x y H) H). auto.
Qed.

Lemma sameValueZero_sym a b : sameValueZero a b = true -> sameValueZero b a = true.
Proof.
  destruct a, b; cbn; try discriminate; auto.
  - destruct b, b0; auto.
  - intros H. apply orb_true_iff in H. apply orb_true_iff.
    destruct H as [H|H]; [left; now apply float_eqb_sym|].
    right. apply andb_true_iff in H. apply andb_true_iff. tauto.
  - intros H. apply String.eqb_eq in H. subst. apply String.eqb_refl.
Qed.

Lemma sameValueZero_trans a b c :
  sameValueZero a b = true -> sameValueZero b c = true -> sameValueZero a c = true.
Proof.
  destruct a, b; cbn; try discriminate; destruct c; cbn; try discriminate; auto.
  - destruct b, b0, b1; auto.
  - intros H1 H2. apply orb_true_iff in H1. apply orb_true_iff in H2. apply orb_true_iff.
    destruct H1 as [H1|H1], H2 as [H2|H2].
    + left. eapply float_eqb_trans; eauto.
    + apply andb_true_iff in H2. destruct (float_eqb_not_nan _ _ H1) as (_ & Hn).
      rewrite Hn in H2. destruct H2; discriminate.
    + apply andb_true_iff in H1. destruct (float_eqb_not_nan _ _ H2) as (Hn & _).
      rewrite Hn in H1. destruct H1; discriminate.
    + right. apply andb_true_iff in H1. apply andb_true_iff in H2.
      apply andb_true_iff. tauto.
  - intros H1 H2. apply String.eqb_eq in H1. apply String.eqb_eq in H2. subst.
    apply String.eqb_refl.
Qed.

(** Keys that are the same to one key are the same to the same keys. *)
Lemma sameValueZero_class a b k :
  sameValueZero a b = true -> sameValueZero a k = sameValueZero b k.
Proof.
  intros Hab.
  destruct (sameValueZero a k) eqn:Hak, (sameValueZero b k) eqn:Hbk; try reflexivity.
  - rewrite (sameValueZero_trans b a k (sameValueZero_sym a b Hab) Hak) in Hbk. discriminate.
  - rewrite (sameValueZero_trans a b k Hab Hbk) in Hak. discriminate.
Qed.

(** [get] after [set]. *)
Lemma Map_get_set {V} (m : JsMap V) k0 v0 k :
  Map_get (Map_set m k0 v0) k =
  if sameValueZero k0 k then Some v0 else Map_get m k.
Proof.
  induction m as [|[k' v'] rest IH]; cbn [Map_set Map_get].
  - reflexivity.
  - destruct (sameValueZero k' k0) eqn:Hk; cbn [Map_get].
    + rewrite (sameValueZero_class k' k0 k Hk).
      destruct (sameValueZero k0 k); reflexivity.
    + rewrite IH. destruct (sameValueZero k' k) eqn:Hk'; [|reflexivity].
      destruct (sameValueZero k0 k) eqn:Hk0; [|reflexivity].
      rewrite (sameValueZero_trans k' k k0 Hk' (sameValueZero_sym k0 k Hk0)) in Hk.
      discriminate.
Qed.

(** Entries with other keys do not change what a key maps to. *)
Lemma Map_get_fold_other {V} (entries : list (value * V)) k :
  (forall kv, In kv entries -> sameValueZero (fst kv) k = false) ->
  forall m,
    Map_get (fold_left (fun m kv => Map_set m (fst kv) (snd kv)) entries m) k =
    Map_get m k.
Proof.
  induction entries as [|[k0 v0] rest IH]; intros Hother m; cbn [fold_left fst snd].
  - reflexivity.
  - rewrite IH by (intros kv Hin; apply Hother; now right).
    rewrite Map_get_set.
    pose proof (Hother (k0, v0) (or_introl eq_refl)) as Hk0. cbn [fst] in Hk0.
    rewrite Hk0. reflexivity.
Qed.

(** The last entry with a key decides. *)
Lemma Map_get_new_last {V} (before after : list (value * V)) k0 v0 k :
  sameValueZero k0 k = true ->
  (forall kv, In kv after -> sameValueZero (fst kv) k = false) ->
  Map_get (Map_new (before ++ (k0, v0) :: after)) k = Some v0.
Proof.
  intros Hk Hafter. unfold Map_new.
  rewrite fold_left_app. cbn [fold_left fst snd].
  rewrite (Map_get_fold_other after k Hafter), Map_get_set, Hk. reflexivity.
Qed.

(** A key is missing exactly when no entry has it. *)
Lemma Map_get_new_none {V} (entries : list (value * V)) k :
  Map_get (Map_new entries) k = None <->
  forall kv, In kv entries -> sameValueZero (fst kv) k = false.
Proof.
  unfold Map_new.
  assert (H : forall m,
    Map_get (fold_left (fun m kv => Map_set m (fst kv) (snd kv)) entries m) k = None <->
    Map_get m k = None /\
    forall kv, In kv entries -> sameValueZero (fst kv) k = false).
  { induction entries as [|[k0 v0] rest IH]; intros m; cbn [fold_left fst snd].
    - split; [intros H; split; [exact H | intros kv []] | tauto].
    - rewrite IH, Map_get_set. split.
      + intros (Hset & Hrest).
        destruct (sameValueZero k0 k) eqn:Hk; [discriminate|].
        split; [exact Hset|]. intros kv [<-|Hin]; [exact Hk | now apply Hrest].
      + intros (Hm & Hall).
        pose proof (Hall (k0, v0) (or_introl eq_refl)) as Hk0. cbn [fst] in Hk0.
        rewrite Hk0.
        split; [exact Hm|]. intros kv Hin. apply Hall. now right. }
  rewrite H. cbn [Map_get]. tauto.
Qed.

End SameValueZero.

Section PriceMap.
Context {rt : JSRuntime}.

(** The keys of the price map are the ids of the rows, in order. *)
Lemma price_entries_keys products :
  forall entries,
    price_entries products = ok entries -> map fst entries = map id products.
Proof.
  unfold price_entries.
  induction products as [|row rest IH]; intros entries; cbn [mapR].
  - intros H. injection H as <-. reflexivity.
  - destruct (ToNumber (price row)) as [e|n]; [discriminate|]. cbn [rbind].
    destruct (mapR _ rest) as [e|tail]; [discriminate|]. cbn [rbind].
    intros H. injection H as <-. cbn. now rewrite (IH tail eq_refl).
Qed.

(** The entries of a list of rows split where the rows do. *)
Lemma price_entries_split before row after :
  forall entries,
    price_entries (before ++ row :: after) = ok entries ->
    exists eb n ea,
      entries = (eb ++ (id row, n) :: ea)%list /\
      ToNumber (price row) = ok n /\
      price_entries after = ok ea.
Proof.
  unfold price_entries.
  induction before as [|x xs IH]; intros entries; cbn [app mapR].
  - destruct (ToNumber (price row)) as [e|n]; [discriminate|]. cbn [rbind].
    destruct (mapR _ after) as [e|ea]; [discriminate|]. cbn [rbind].
    intros H. injection H as <-. exists [], n, ea. auto.
  - destruct (ToNumber (price x)) as [e|nx]; [discriminate|]. cbn [rbind].
    destruct (mapR _ (xs ++ row :: after)) as [e|tail] eqn:Ht; [discriminate|].
    cbn [rbind]. intros H. injection H as <-.
    destruct (IH tail eq_refl) as (eb & n & ea & -> & Hn & Ha).
    exists ((id x, nx) :: eb), n, ea. auto.
Qed.

Lemma keys_do_not_match {V} (entries : list (value * V)) (rows : list ProductRow) k :
  map fst entries = map id rows ->
  (forall row, In row rows -> sameValueZero (id row) k = false) ->
  forall kv, In kv entries -> sameValueZero (fst kv) k = false.
Proof.
  intros Hkeys Hrows kv Hin.
  apply (in_map fst) in Hin. rewrite Hkeys in Hin.
  apply in_map_iff in Hin. destruct Hin as (row & <- & Hrow). now apply Hrows.
Qed.

Lemma rows_do_not_match {V} (entries : list (value * V)) (rows : list ProductRow) k :
  map fst entries = map id rows ->
  (forall kv, In kv entries -> sameValueZero (fst kv) k = false) ->
  forall row, In row rows -> sameValueZero (id row) k = false.
Proof.
  intros Hkeys Hentries row Hin.
  apply (in_map id) in Hin. rewrite <- Hkeys in Hin.
  apply in_map_iff in Hin. destruct Hin as (kv & <- & Hkv). now apply Hentries.
Qed.

End PriceMap.

(** X7.  The price map built from the rows of the lookup gives a
    [productId] no price exactly when no row has that id (compared as
    [Map] compares keys), and otherwise the price, converted with
    [Number], of the last row that has it. *)
Theorem item_is_priced_by_the_last_matching_row
    {rt : JSRuntime} products entries k :
  price_entries products = ok entries ->
  (Map_get (Map_new entries) k = None <->
   forall row, In row products -> sameValueZero (id row) k = false) /\
  (forall before row after,
     products = (before ++ row :: after)%list ->
     sameValueZero (id row) k = true ->
     (forall later, In later after -> sameValueZero (id later) k = false) ->
     exists n, ToNumber (price row) = ok n /\ Map_get (Map_new entries) k = Some n).
Proof.
  intros He. pose proof (price_entries_keys products entries He) as Hkeys.
  split.
  - rewrite Map_get_new_none. split.
    + apply rows_do_not_match. exact Hkeys.
    + apply keys_do_not_match. exact Hkeys.
  - intros before row after -> Hrow Hafter.
    destruct (price_entries_split before row after entries He)
      as (eb & n & ea & -> & Hn & Ha).
    exists n. split; [exact Hn|].
    apply Map_get_new_last; [exact Hrow|].
    apply (keys_do_not_match ea after k); [|exact Hafter].
    apply price_entries_keys. exact Ha.
Qed.

Lemma item_is_priced_by_the_last_matching_row_witness :
  Index.createOrder (rt := Reference.runtime) Scenario.shop_duplicate_rows
    (Sample.request "{'items':[{'productId':'A','quantity':2},{'productId':'B'}]}")
    Sample.warm [] =
  (inr (Sample.reply 201 "{'status':'ok','total':14}"), Sample.warm,
   [SelectPrices [VStr "A"; VStr "B"]; InsertOrder 14]) /\
  Map_get (Map_new [(VStr "A", 5%float); (VStr "B", 0%float); (VStr "A", 7%float)])
    (VStr "A") = Some 7%float.
Proof.
  split; [vm_compute; reflexivity|].
  destruct (proj2 (item_is_priced_by_the_last_matching_row (rt := Reference.runtime)
                     [ {| id := VStr "A"; price := VNum 5 |};
                       {| id := VStr "B"; price := VNull |};
                       {| id := VStr "A"; price := VNum 7 |} ]
                     [(VStr "A", 5%float); (VStr "B", 0%float); (VStr "A", 7%float)]
                     (VStr "A") eq_refl)
              [ {| id := VStr "A"; price := VNum 5 |};
                {| id := VStr "B"; price := VNull |} ]
              {| id := VStr "A"; price := VNum 7 |} [] eq_refl eq_refl
              (fun later (H : In later []) => match H with end))
    as (n & Hn & Hget).
  cbn in Hn. injection Hn as <-. exact Hget.
Defined.

(** X8.  Ids are compared without conversion: when every row of the
    lookup has a number for id, a first item that names its product by
    a text, be it the text of that number, is answered
    PRODUCT_NOT_FOUND. *)
Theorem text_id_never_matches_numeric_rows
    {rt : JSRuntime} (W : World) event s l item others pool s' ids products entries
    text qty :
  validate event = Cart (item :: others) ->
  Index.getPool W s l = (inr pool, s', l) ->
  productIds (item :: others) = ok ids ->
  select_prices W ids = ok products ->
  price_entries products = ok entries ->
  Forall (fun row => is_number (id row) = true) products ->
  get item "productId" = ok (VStr text) ->
  Index.resolve_quantity item = ok qty ->
  Index.createOrder W event s l =
  (inr (Index.response 400 (PRODUCT_NOT_FOUND (VStr text))), s',
   (l ++ [SelectPrices ids])%list).
Proof.
  intros Hv Hp Hi Hs He Hnum Hid Hq.
  apply path_sound. eapply path_not_found; eauto.
  apply (price_items_unpriced (Map_new entries) [] [] item qty (VStr text) others);
    [constructor | exact Hq |].
  split; [exact Hid|].
  apply Map_get_new_none.
  apply (keys_do_not_match entries products (VStr text)
           (price_entries_keys products entries He)).
  intros row Hrow. rewrite Forall_forall in Hnum. specialize (Hnum row Hrow).
  destruct (id row); try discriminate Hnum. reflexivity.
Qed.

Lemma text_id_never_matches_numeric_rows_witness :
  Index.createOrder (rt := Reference.runtime) Scenario.shop_numeric
    (Sample.request "{'items':[{'productId':'1'}]}") Sample.fresh [] =
  (inr (Sample.reply 400 "{'error':'PRODUCT_NOT_FOUND','productId':'1'}"),
   Sample.warm, [SelectPrices [VStr "1"]]).
Proof.
  refine (text_id_never_matches_numeric_rows (rt := Reference.runtime)
            Scenario.shop_numeric _ Sample.fresh []
            (VObj [("productId", VStr "1")]) [] Sample.good_pool Sample.warm
            [VStr "1"] Scenario.catalog_numeric
            [(VNum 1, 10%float); (VNum 2, 2.5%float)] "1" 1%float _ _ _ _ _ _ _ _).
  - vm_compute. reflexivity.
  - vm_compute. reflexivity.
  - vm_compute. reflexivity.
  - vm_compute. reflexivity.
  - vm_compute. reflexivity.
  - repeat constructor.
  - vm_compute. reflexivity.
  - vm_compute. reflexivity.
Defined.

(** ** Writes, listings and headers *)

(** X9.  An order is written only once every item of the cart has been
    priced: whenever [createOrder] issues a write, accepted or not, the
    pool was obtained, the lookup for the [productId] of the items came
    first and answered, every item resolved to a price of the map built
    from the rows of that answer and to a quantity, and the amount
    written is the sum over the items; the response is 201 with that
    amount when the store accepts the write and 500 DB_ERROR when it
    refuses. *)
Theorem order_is_written_only_when_every_item_is_priced
    {rt : JSRuntime} (W : World) event s l :
  exists r s' calls,
    Index.createOrder W event s l = (inr r, s', (l ++ calls)%list) /\
    forall total,
      In (InsertOrder total) calls ->
      exists items pool ids products entries lines,
        validate event = Cart items /\
        Index.getPool W s l = (inr pool, s', l) /\
        productIds items = ok ids /\
        select_prices W ids = ok products /\
        price_entries products = ok entries /\
        Forall2 (resolves (Map_new entries)) items lines /\
        total = sum_lines lines /\
        calls = [SelectPrices ids; InsertOrder total] /\
        ((exists header, insert_order W total = ok header /\
                         r = Index.response 201 (ORDER_OK total)) \/
         (exists e, insert_order W total = inl e /\
                    r = Index.response 500 DB_ERROR)).
Proof.
  by_path W event s l;
    match goal with
    | Hrun : _ = (_, _, l) |- _ => answer (@nil call)
    | Hrun : _ = (_, _, (l ++ ?calls)%list) |- _ => answer calls
    end;
    intros total0 Hin; which_call Hin;
    match goal with
    | H : Index.price_items _ _ _ = ok (Fallthrough _) |- _ =>
        destruct (price_items_fallthrough_inv _ _ _ _ H) as (lines & Hlines & Hsum)
    end;
    exists items, p, ids, products, entries, lines;
    do 6 (split; [assumption|]); (split; [exact Hsum|]);
    (split; [reflexivity|]); eauto.
Qed.

(** X10.  [getProducts] passes the listing through: when the pool is
    available and the listing answers, the response is 200 with the
    rows as they came, an empty listing included, after the single
    statement of the listing; a 200 is returned in no other case, and
    [getProducts] never issues a price lookup or a write. *)
Theorem getProducts_passes_the_listing_through
    {rt : JSRuntime} (W : World) s l :
  exists r s' calls,
    Index.getProducts W s l = (inr r, s', (l ++ calls)%list) /\
    lookups calls = [] /\ writes calls = [] /\
    (forall p s1 rows,
       Index.getPool W s l = (inr p, s1, l) -> select_products W = ok rows ->
       r = Index.response 200 (VArr rows) /\ calls = [SelectProducts] /\ s' = s1) /\
    (statusCode r = 200%Z ->
     exists rows, select_products W = ok rows /\ r = Index.response 200 (VArr rows) /\
                  body r = JSON_stringify (VArr rows)).
Proof.
  destruct (getProducts_cases W s l)
    as [(e & s' & Hp & Hrun)|[(p & s' & e & Hp & Hs & Hrun)|(p & s' & rows & Hp & Hs & Hrun)]].
  - answer (@nil call). refine (conj eq_refl (conj eq_refl (conj _ _))).
    + intros p1 s1 rows Hp1 Hs1. congruence.
    + intros H. discriminate H.
  - answer [SelectProducts]. refine (conj eq_refl (conj eq_refl (conj _ _))).
    + intros p1 s1 rows Hp1 Hs1. unfold ok in *. congruence.
    + intros H. discriminate H.
  - answer [SelectProducts]. refine (conj eq_refl (conj eq_refl (conj _ _))).
    + intros p1 s1 rows1 Hp1 Hs1. unfold ok in *.
      assert (rows1 = rows) by congruence. assert (s1 = s') by congruence.
      subst. auto.
    + intros _. exists rows. auto.
Qed.

Section Responses.
Context {rt : JSRuntime}.
Variable W : World.

Local Open Scope m_scope.

(** Whatever [createOrder] of the copy returns was built by
    [response]. *)
Lemma copy_createOrder_is_a_response event s l :
  exists n v s' l',
    HealthFunction.createOrder W event s l = (inr (Index.response n v), s', l').
Proof.
  destruct (validate event) as [| | | |items] eqn:Hv;
    try (rewrite copy_createOrder_rejected, Hv; eauto).
  rewrite (copy_createOrder_on_cart W event items s l Hv).
  destruct (copy_getPool_succeeds W s l) as (p & s' & Hp).
  unfold try_catch, bind. rewrite Hp. unfold lift, query, ret.
  destruct (productIds items) as [e|ids]; [eauto|].
  destruct (select_prices W ids) as [e|products]; [eauto|].
  destruct (price_entries products) as [e|entries]; [eauto|].
  change (HealthFunction.price_items (Map_new entries) items 0%float)
    with (Index.price_items (Map_new entries) items 0%float).
  destruct (Index.price_items (Map_new entries) items 0%float) as [e|[r|total]] eqn:Hl;
    [eauto| |].
  - destruct (price_items_returns _ _ _ _ Hl) as (pid & ->). eauto.
  - destruct (insert_order W total) as [e|header]; eauto.
Qed.

Lemma copy_getProducts_is_a_response s l :
  exists n v s' l',
    HealthFunction.getProducts W s l = (inr (Index.response n v), s', l').
Proof.
  unfold HealthFunction.getProducts, try_catch, bind, query, ret.
  destruct (copy_getPool_succeeds W s l) as (p & s' & Hp). rewrite Hp.
  destruct (select_products W) as [e|rows]; eauto.
Qed.

End Responses.

(** X11.  Every response of every handler of both files, the error
    responses included, carries the same four headers: the JSON content
    type and the three permissive cross-origin headers. *)
Theorem every_response_carries_the_cors_headers {rt : JSRuntime} (W : World) :
  (forall event s l,
     exists r s' l', Index.createOrder W event s l = (inr r, s', l') /\ headers r = cors) /\
  (forall s l,
     exists r s' l', Index.getProducts W s l = (inr r, s', l') /\ headers r = cors) /\
  (forall s l,
     exists r s' l', Index.health s l = (inr r, s', l') /\ headers r = cors) /\
  (forall event s l,
     exists r s' l',
       HealthFunction.createOrder W event s l = (inr r, s', l') /\ headers r = cors) /\
  (forall s l,
     exists r s' l',
       HealthFunction.getProducts W s l = (inr r, s', l') /\ headers r = cors) /\
  (forall s l,
     exists r s' l', HealthFunction.health s l = (inr r, s', l') /\ headers r = cors).
Proof.
  split; [|split; [|split; [|split; [|split]]]].
  - intros event s l.
    by_path W event s l; do 3 eexists; (split; [eassumption|]); reflexivity.
  - intros s l.
    destruct (getProducts_cases W s l)
      as [(e & s' & Hp & Hrun)|[(p & s' & e & Hp & Hs & Hrun)|(p & s' & rows & Hp & Hs & Hrun)]];
      do 3 eexists; (split; [eassumption|]); reflexivity.
  - intros s l. do 3 eexists. split; reflexivity.
  - intros event s l.
    destruct (copy_createOrder_is_a_response W event s l) as (n & v & s' & l' & Hrun).
    do 3 eexists. split; [exact Hrun | reflexivity].
  - intros s l.
    destruct (copy_getProducts_is_a_response W s l) as (n & v & s' & l' & Hrun).
    do 3 eexists. split; [exact Hrun | reflexivity].
  - intros s l. do 3 eexists. split; reflexivity.
Qed.

(** ** The secret and the copy's pool *)

(** X12.  [getDbConfig] reads the secret from [SecretString] when it is
    a non-empty text, whatever [SecretBinary] holds, and otherwise from
    the decoded [SecretBinary]: the same text delivered either way
    resolves to the same outcome. *)
Theorem secret_binary_is_read_when_the_string_is_missing
    {rt : JSRuntime} (W1 W2 : World) s l arn text other missing binary :
  env W1 "DB_SECRET_ARN" = Some arn ->
  env W2 "DB_SECRET_ARN" = Some arn ->
  getSecretValue W1 arn = ok {| SecretString := Some text; SecretBinary := other |} ->
  text <> "" ->
  getSecretValue W2 arn = ok {| SecretString := missing; SecretBinary := Some binary |} ->
  missing = None \/ missing = Some "" ->
  binary <> "" ->
  base64_to_utf8 binary = text ->
  Index.getDbConfig W1 s l = Index.getDbConfig W2 s l.
Proof.
  intros He1 He2 Hs1 Htext Hs2 Hmissing Hbinary Hdecode.
  unfold Index.getDbConfig, bind, gets, lift.
  destruct (Index.cachedConfig s); [reflexivity|].
  rewrite He1, He2. destruct arn as [|c arn]; [reflexivity|].
  rewrite Hs1, Hs2. unfold ok. cbv beta iota.
  assert (Ht1 : Index.secret_text {| SecretString := Some text; SecretBinary := other |}
                = text).
  { unfold Index.secret_text. cbn. destruct text; [congruence | reflexivity]. }
  assert (Ht2 : Index.secret_text {| SecretString := missing; SecretBinary := Some binary |}
                = text).
  { unfold Index.secret_text. cbn.
    destruct binary as [|b bs]; [congruence|].
    destruct Hmissing as [-> | ->]; exact Hdecode. }
  rewrite Ht1, Ht2. reflexivity.
Qed.

Lemma secret_binary_is_read_when_the_string_is_missing_witness :
  Index.getDbConfig (rt := Reference.runtime) Scenario.shop_binary Sample.fresh [] =
  (inr Sample.good_config,
   {| Index.pool := None; Index.cachedConfig := Some Sample.good_config |}, []).
Proof.
  rewrite <- (secret_binary_is_read_when_the_string_is_missing (rt := Reference.runtime)
                Sample.shop_AB Scenario.shop_binary Sample.fresh [] "arn:secret"
                (Sample.js Sample.good_secret) None None Scenario.binary_secret
                eq_refl eq_refl eq_refl).
  - vm_compute. reflexivity.
  - vm_compute. discriminate.
  - reflexivity.
  - left. reflexivity.
  - vm_compute. discriminate.
  - vm_compute. reflexivity.
Defined.

(** X13.  [getPool] of the packaged copy never fails and issues no
    statement: it keeps the pool it has, and otherwise creates one from
    the environment as it is, with the database [tienda] when DB_NAME
    is unset or empty and the port 3306 when DB_PORT is unset or
    empty, even when DB_HOST, DB_USER and DB_PASSWORD are unset.  The
    pool is then kept whatever the environment becomes. *)
Theorem copy_getPool_defaults {rt : JSRuntime} (W : World) s l :
  exists p s',
    HealthFunction.getPool W s l = (inr p, s', l) /\
    HealthFunction.pool s' = Some p /\
    (forall (W2 : World) l2, HealthFunction.getPool W2 s' l2 = (inr p, s', l2)) /\
    (forall held, HealthFunction.pool s = Some held -> p = held /\ s' = s) /\
    (HealthFunction.pool s = None ->
     pool_host p = HealthFunction.env_value W "DB_HOST" /\
     pool_user p = HealthFunction.env_value W "DB_USER" /\
     pool_password p = HealthFunction.env_value W "DB_PASSWORD" /\
     truthy (pool_database p) = true /\
     (env W "DB_NAME" = None \/ env W "DB_NAME" = Some "" ->
      pool_database p = VStr "tienda") /\
     (forall name, env W "DB_NAME" = Some name -> name <> "" ->
                   pool_database p = VStr name) /\
     (env W "DB_PORT" = None \/ env W "DB_PORT" = Some "" ->
      pool_port p = 3306%float) /\
     (forall text, env W "DB_PORT" = Some text -> text <> "" ->
                   pool_port p = StringToNumber text) /\
     waitForConnections p = true /\ connectionLimit p = 5%Z /\ queueLimit p = 0%Z).
Proof.
  unfold HealthFunction.getPool, bind, gets, modify, ret.
  destruct (HealthFunction.pool s) as [held|] eqn:Hpool.
  - exists held, s. split; [reflexivity|]. split; [exact Hpool|]. split; [|split].
    + intros W2 l2. rewrite Hpool. reflexivity.
    + intros h Hh. injection Hh as <-. auto.
    + discriminate.
  - eexists. eexists. split; [reflexivity|]. split; [reflexivity|]. split; [|split].
    + intros W2 l2. reflexivity.
    + discriminate.
    + intros _. cbn.
      unfold HealthFunction.env_value.
      destruct (env W "DB_NAME") as [[|c name]|] eqn:Hname;
        destruct (env W "DB_PORT") as [[|d text]|] eqn:Hport;
        cbn; repeat split; auto;
        try (intros [H|H]; congruence);
        try (intros x Hx Hne; congruence).
Qed.

Lemma copy_getPool_defaults_witness :
  HealthFunction.getPool (rt := Reference.runtime) Sample.unconfigured_shop
    {| HealthFunction.pool := Some Scenario.copy_pool |} [] =
  (inr Scenario.copy_pool, {| HealthFunction.pool := Some Scenario.copy_pool |}, []).
Proof.
  destruct (copy_getPool_defaults (rt := Reference.runtime) Scenario.shop_listing
              Sample.fresh_copy [])
    as (p & s' & Hrun & _ & Hkept & _).
  vm_compute in Hrun. injection Hrun as <- <-.
  apply (Hkept Sample.unconfigured_shop []).
Defined.

(** X14.  [getProducts] of the two files agree, response and calls,
    whenever [getPool] of src/index.js yields a pool; where it does
    not, src/index.js answers 500 without any statement while the copy
    still issues the listing. *)
Theorem getProducts_copies_agree
    {rt : JSRuntime} (W : World) s1 s2 l :
  ((exists p s1', Index.getPool W s1 l = (inr p, s1', l)) ->
   fst (fst (Index.getProducts W s1 l)) = fst (fst (HealthFunction.getProducts W s2 l)) /\
   snd (Index.getProducts W s1 l) = snd (HealthFunction.getProducts W s2 l)) /\
  ((exists e s1', Index.getPool W s1 l = (inl e, s1', l)) ->
   Index.getProducts W s1 l = (inr (Index.response 500 DB_ERROR), s1, l) /\
   snd (HealthFunction.getProducts W s2 l) = (l ++ [SelectProducts])%list).
Proof.
  destruct (copy_getPool_succeeds W s2 l) as (p2 & s2' & Hp2).
  split.
  - intros (p & s1' & Hp).
    unfold Index.getProducts, HealthFunction.getProducts, try_catch, bind, query, ret.
    rewrite Hp, Hp2. destruct (select_products W); split; reflexivity.
  - intros (e & s1' & Hp).
    pose proof (getPool_outcome W s1 l) as Hout. rewrite Hp in Hout.
    destruct Hout as (-> & _).
    unfold Index.getProducts, HealthFunction.getProducts, try_catch, bind, query, ret.
    rewrite Hp, Hp2. destruct (select_products W); split; reflexivity.
Qed.

Lemma getProducts_copies_agree_witness :
  fst (fst (HealthFunction.getProducts (rt := Reference.runtime) Scenario.shop_listing
              Sample.fresh_copy [])) =
  inr (Sample.reply 200
         "[{'id':1,'name':'Mug','price':'5.00','image_url':null},{'id':2,'name':'Cap','price':'12.90','image_url':'https://cdn.example/cap.png'}]").
Proof.
  rewrite <- (proj1 (proj1 (getProducts_copies_agree (rt := Reference.runtime)
                              Scenario.shop_listing Sample.fresh Sample.fresh_copy [])
                       (ex_intro _ Sample.good_pool (ex_intro _ Sample.warm eq_refl)))).
  vm_compute. reflexivity.
Defined.

(** ** Requests that are turned away *)

(** X15.  What [createOrder] makes of a request is decided by the
    [body] of the event alone, and a request without a cart is turned
    away before the process does anything: the module state and the log
    are unchanged.  A falsy body of any type is EMPTY_BODY; a body that
    cannot be parsed, or cannot even be converted to a text, is
    INVALID_JSON; a payload of any type other than [null] whose [items]
    is not a non-empty array is EMPTY_CART; and an event that is [null]
    is answered 500 DB_ERROR. *)
Theorem malformed_requests_are_turned_away {rt : JSRuntime} (W : World) event s l :
  (forall e, get event "body" = inl e ->
     Index.createOrder W event s l = (inr (Index.response 500 DB_ERROR), s, l)) /\
  (forall body, get event "body" = ok body -> truthy body = false ->
     Index.createOrder W event s l =
     (inr (Index.response 400 (VObj [("error", VStr "EMPTY_BODY")])), s, l)) /\
  (forall body e, get event "body" = ok body -> truthy body = true ->
     JSON_parse_value body = inl e ->
     Index.createOrder W event s l =
     (inr (Index.response 400 (VObj [("error", VStr "INVALID_JSON")])), s, l)) /\
  (forall body payload v, get event "body" = ok body -> truthy body = true ->
     JSON_parse_value body = ok payload ->
     get payload "items" = ok v ->
     (forall first others, v <> VArr (first :: others)) ->
     Index.createOrder W event s l =
     (inr (Index.response 400 (VObj [("error", VStr "EMPTY_CART")])), s, l)) /\
  (forall other, get other "body" = get event "body" ->
     Index.createOrder W other s l = Index.createOrder W event s l).
Proof.
  split; [|split; [|split; [|split]]].
  - intros e Hb. rewrite createOrder_rejected. unfold validate. now rewrite Hb.
  - intros body Hb Hfalsy. rewrite createOrder_rejected. unfold validate.
    rewrite Hb. unfold ok. now rewrite Hfalsy.
  - intros body e Hb Htruthy Hparse. rewrite createOrder_rejected. unfold validate.
    rewrite Hb. unfold ok. now rewrite Htruthy, Hparse.
  - intros body payload v Hb Htruthy Hparse Hitems Hnot.
    rewrite createOrder_rejected. unfold validate.
    rewrite Hb. unfold ok in *. rewrite Htruthy, Hparse, Hitems. cbn [negb].
    destruct v as [| | | | |[|first others]|]; try reflexivity.
    exfalso. exact (Hnot first others eq_refl).
  - intros other Hsame.
    unfold Index.createOrder, Index.createOrder_body, try_catch, bind, lift.
    rewrite Hsame. reflexivity.
Qed.

Lemma malformed_requests_are_turned_away_witness :
  Index.createOrder (rt := Reference.runtime) Sample.shop_AB
    (VObj [("body", VNum 0)]) Sample.fresh [] =
  (inr (Sample.reply 400 "{'error':'EMPTY_BODY'}"), Sample.fresh, []) /\
  Index.createOrder (rt := Reference.runtime) Sample.shop_AB
    (VObj [("body", VObj [("toString", VNull)])]) Sample.fresh [] =
  (inr (Sample.reply 400 "{'error':'INVALID_JSON'}"), Sample.fresh, []) /\
  Index.createOrder (rt := Reference.runtime) Sample.shop_AB
    (VObj [("body", VNum 5)]) Sample.fresh [] =
  (inr (Sample.reply 400 "{'error':'EMPTY_CART'}"), Sample.fresh, []) /\
  Index.createOrder (rt := Reference.runtime) Sample.shop_AB
    (VObj [("isBase64Encoded", VBool true); ("body", VStr "e30=")]) Sample.fresh [] =
  (inr (Sample.reply 400 "{'error':'INVALID_JSON'}"), Sample.fresh, []).
Proof.
  pose proof (malformed_requests_are_turned_away (rt := Reference.runtime)
                Sample.shop_AB (VObj [("body", VNum 0)]) Sample.fresh [])
    as (_ & Hempty & _).
  pose proof (malformed_requests_are_turned_away (rt := Reference.runtime)
                Sample.shop_AB (VObj [("body", VObj [("toString", VNull)])])
                Sample.fresh [])
    as (_ & _ & Hinvalid & _).
  pose proof (malformed_requests_are_turned_away (rt := Reference.runtime)
                Sample.shop_AB (VObj [("body", VNum 5)]) Sample.fresh [])
    as (_ & _ & _ & Hcart & _).
  pose proof (malformed_requests_are_turned_away (rt := Reference.runtime)
                Sample.shop_AB (VObj [("body", VStr "e30=")]) Sample.fresh [])
    as (_ & _ & Hplain & _ & Hsame).
  split; [|split; [|split]].
  - apply (Hempty (VNum 0)); reflexivity.
  - apply (Hinvalid (VObj [("toString", VNull)])
             (TypeError "Cannot convert object to primitive value"));
      reflexivity.
  - apply (Hcart (VNum 5) (VNum 5) VUndefined); try reflexivity.
    intros first others. discriminate.
  - rewrite (Hsame (VObj [("isBase64Encoded", VBool true); ("body", VStr "e30=")]) eq_refl).
    apply (Hplain (VStr "e30=") (SyntaxError "Unexpected token in JSON")); reflexivity.
Defined.
